(** * lookup: utils/parse.py

    A shallow embedding of [extract_word_defs] and the properties of its
    printed output and return value.

    The routine loads a JSON document, walks the values of the top-level
    mapping, and prints one line [word|Definition] for every meaning with a
    non-empty definition.  Everything happens inside one [try] block whose
    handler prints a diagnostic and returns an empty list.

    Modelling choices:
    - a Python [str] is a list of Unicode code points;
    - the value produced by [json.load] is the inductive [json]; a Python
      [dict] is an association list in insertion order (the order in which
      [values()] iterates);
    - standard output is a UTF-8 text stream, modelled as the list of the
      texts handed to [print], one element per call (each call writes its text
      and a newline); a line of output is one such element.  [print] raises
      [UnicodeEncodeError] on a text that UTF-8 cannot encode, that is, one
      holding a lone surrogate (which [json.load] accepts), and writes nothing
      of it; the stream itself is taken to be writable;
    - exceptions are values threaded through a small output-and-error monad;
    - [open]/[json.load] and the Unicode case tables behind [str.lower] and
      [str.upper] are outside the repository: the first is a parameter
      ([filesystem]), the second an interface ([UnicodeCase]). *)

From Stdlib Require Import List NArith ZArith Bool String Ascii Lia.
From Stdlib Require Import DecimalString.
From Stdlib Require Import Floats.SpecFloat.
Import ListNotations.

Set Implicit Arguments.
Set Warnings "-register-all".

(** ** Python strings *)

Module PyStr.

(** A [str] is a sequence of code points. *)
Definition codepoint := N.
Definition pystr := list codepoint.

(** ASCII literal to [str]. *)
Definition u (s : string) : pystr :=
  List.map N_of_ascii (list_ascii_of_string s).

Fixpoint eqb (a b : pystr) : bool :=
  match a, b with
  | [], [] => true
  | x :: a', y :: b' => N.eqb x y && eqb a' b'
  | _, _ => false
  end.

Definition is_ascii (s : pystr) : bool :=
  forallb (fun c => N.ltb c 128) s.

(** Case conversion of the ASCII letters, every other code point kept. *)
Definition ascii_lower_cp (c : codepoint) : codepoint :=
  if N.leb 65 c && N.leb c 90 then (c + 32)%N else c.

Definition ascii_upper_cp (c : codepoint) : codepoint :=
  if N.leb 97 c && N.leb c 122 then (c - 32)%N else c.

(** The surrogate code points U+D800 to U+DFFF.  UTF-8 encodes every code
    point but these. *)
Definition is_surrogate (c : codepoint) : bool :=
  N.leb 55296 c && N.leb c 57343.

(** The text can be encoded as UTF-8. *)
Definition encodable (s : pystr) : bool :=
  forallb (fun c => negb (is_surrogate c)) s.

(** One hexadecimal digit, lower case. *)
Definition hex_digit (n : N) : codepoint :=
  if N.ltb n 10 then (48 + n)%N else (87 + n)%N.

(** A surrogate as the interpreter shows it in [repr] and in messages: a
    backslash, [u] and four hexadecimal digits.  Other code points stay. *)
Definition escape_cp (c : codepoint) : pystr :=
  if is_surrogate c then
    [92%N; 117%N;
     hex_digit (N.modulo (N.div c 4096) 16); hex_digit (N.modulo (N.div c 256) 16);
     hex_digit (N.modulo (N.div c 16) 16); hex_digit (N.modulo c 16)]
  else [c].

Definition escape (s : pystr) : pystr := flat_map escape_cp s.

(** A number in decimal. *)
Definition decimal (n : N) : pystr := u (NilZero.string_of_uint (N.to_uint n)).

(** [str.lower] and [str.upper] as the interpreter provides them.  They map
    strings to strings: the upper-case form of one character can be longer
    than one character (Unicode SpecialCasing), and [lower] depends on
    context (final sigma).  On ASCII text they are the ASCII conversions. *)
Class UnicodeCase := {
  str_lower : pystr -> pystr;
  str_upper : pystr -> pystr;
  str_lower_ascii :
    forall s, is_ascii s = true -> str_lower s = List.map ascii_lower_cp s;
  str_upper_ascii :
    forall s, is_ascii s = true -> str_upper s = List.map ascii_upper_cp s
}.

(** An excerpt of the Unicode tables: the ASCII letters and U+00DF
    (LATIN SMALL LETTER SHARP S), whose upper-case form is the two
    characters "SS" and whose lower-case form is itself.  It agrees with
    CPython on every string over ASCII and U+00DF. *)
Definition excerpt_upper_cp (c : codepoint) : pystr :=
  if N.eqb c 223 then [83%N; 83%N] else [ascii_upper_cp c].

Definition excerpt_upper (s : pystr) : pystr := flat_map excerpt_upper_cp s.
Definition excerpt_lower (s : pystr) : pystr := List.map ascii_lower_cp s.

End PyStr.
Import PyStr.

(** ** JSON values as [json.load] builds them *)

Inductive json : Type :=
| JNull                                  (* None *)
| JBool (b : bool)                       (* bool *)
| JInt (z : Z)                           (* int *)
| JFloat (f : spec_float)                (* float, NaN and infinities included *)
| JStr (s : pystr)                       (* str *)
| JList (l : list json)                  (* list *)
| JDict (d : list (pystr * json)).       (* dict, insertion order *)

Definition pydict := list (pystr * json).

(** [type(x).__name__], as it appears in the interpreter's messages. *)
Definition type_name (x : json) : pystr :=
  match x with
  | JNull => u "NoneType"
  | JBool _ => u "bool"
  | JInt _ => u "int"
  | JFloat _ => u "float"
  | JStr _ => u "str"
  | JList _ => u "list"
  | JDict _ => u "dict"
  end.

(** Truth value testing ([if x:]). *)
Definition truthy (x : json) : bool :=
  match x with
  | JNull => false
  | JBool b => b
  | JInt z => negb (Z.eqb z 0)
  | JFloat f => match f with S754_zero _ => false | _ => true end
  | JStr s => match s with [] => false | _ => true end
  | JList l => match l with [] => false | _ => true end
  | JDict d => match d with [] => false | _ => true end
  end.

(** ** Exceptions *)

Inductive exc_class : Type :=
| OSError | UnicodeDecodeError | JSONDecodeError | RecursionError
| AttributeError | TypeError | KeyError | IndexError
| UnicodeEncodeError.

(** An exception: its class and the text its message is made from. *)
Record exception : Type := mkExc { exc_cls : exc_class; exc_text : pystr }.

(** [exc_msg] is [str(e)].  The interpreter writes what a message quotes (a
    file name, a character) through [repr], which shows a lone surrogate as
    its backslash escape; so [str(e)] holds no lone surrogate. *)
Definition exc_msg (e : exception) : pystr := escape (exc_text e).

(** [isinstance(e, Exception)]: every class above derives from [Exception]. *)
Definition is_Exception (e : exception) : bool :=
  match exc_cls e with
  | OSError | UnicodeDecodeError | JSONDecodeError | RecursionError
  | AttributeError | TypeError | KeyError | IndexError
  | UnicodeEncodeError => true
  end.

Inductive result (A : Type) : Type :=
| Ok (a : A)
| Raise (e : exception).
Arguments Ok {A} a.
Arguments Raise {A} e.

Definition no_attribute (x : json) (attr : string) : exception :=
  mkExc AttributeError
        (u "'" ++ type_name x ++ u "' object has no attribute '" ++ u attr ++ u "'").

Definition not_subscriptable (x : json) : exception :=
  mkExc TypeError (u "'" ++ type_name x ++ u "' object is not subscriptable").

Definition not_iterable (x : json) : exception :=
  mkExc TypeError (u "'" ++ type_name x ++ u "' object is not iterable").

Definition cannot_concatenate (x : json) : exception :=
  mkExc TypeError
        (u "can only concatenate str (not " ++ [34%N] ++ type_name x ++ [34%N]
           ++ u ") to str").

(** ** The output-and-error monad *)

Definition stdout := list pystr.

Definition M (A : Type) : Type := stdout -> stdout * result A.

Definition ret {A} (a : A) : M A := fun out => (out, Ok a).

Definition raise {A} (e : exception) : M A := fun out => (out, Raise e).

Definition lift {A} (r : result A) : M A := fun out => (out, r).

Definition bind {A B} (m : M A) (k : A -> M B) : M B :=
  fun out =>
    match m out with
    | (out', Ok a) => k a out'
    | (out', Raise e) => (out', Raise e)
    end.

(** Where the first surrogate of a text is: its position, the surrogate and
    the text after it. *)
Fixpoint first_surrogate (s : pystr) (pos : N)
  : option (N * codepoint * pystr) :=
  match s with
  | [] => None
  | c :: s' =>
      if is_surrogate c then Some (pos, c, s')
      else first_surrogate s' (pos + 1)%N
  end.

(** How many surrogates a text starts with. *)
Fixpoint surrogate_run (s : pystr) : N :=
  match s with
  | c :: s' => if is_surrogate c then (1 + surrogate_run s')%N else 0%N
  | [] => 0%N
  end.

(** The exception the UTF-8 encoder of the stream raises on a text: it
    names the first surrogate and its position, or the positions of the
    first run of surrogates when there are several in a row. *)
Definition encode_error (s : pystr) : exception :=
  match first_surrogate s 0 with
  | Some (start, c, rest) =>
      let more := surrogate_run rest in
      if N.eqb more 0 then
        mkExc UnicodeEncodeError
              (u "'utf-8' codec can't encode character '" ++ escape_cp c
                 ++ u "' in position " ++ decimal start
                 ++ u ": surrogates not allowed")
      else
        mkExc UnicodeEncodeError
              (u "'utf-8' codec can't encode characters in position "
                 ++ decimal start ++ u "-" ++ decimal (start + more)
                 ++ u ": surrogates not allowed")
  | None =>
      (* not reached: [print] raises only on a text that holds a surrogate *)
      mkExc UnicodeEncodeError (u "surrogates not allowed")
  end.

(** [print(s)]: the text is encoded and written, or the encoder raises and
    nothing is written. *)
Definition print (s : pystr) : M unit :=
  fun out =>
    if encodable s then (out ++ [s], Ok tt)
    else (out, Raise (encode_error s)).

Declare Scope py_scope.
Delimit Scope py_scope with py.
Notation "x <- m ;; k" := (bind m (fun x => k))
  (at level 61, m at next level, right associativity) : py_scope.
Notation "m ;; k" := (bind m (fun _ => k))
  (at level 61, right associativity) : py_scope.
Open Scope py_scope.

(** [for x in xs: body(x)]. *)
Fixpoint for_each {A} (body : A -> M unit) (xs : list A) : M unit :=
  match xs with
  | [] => ret tt
  | x :: xs' => body x ;; for_each body xs'
  end.

(** A computation is uniform when it only appends to the output and does
    not look at what is already there. *)
Definition uniform {A} (m : M A) : Prop :=
  forall out, m out = (out ++ fst (m []), snd (m [])).

(** ** The operations of the interpreter the routine uses *)

Module Py.

(** Lookup by key in a [dict]. *)
Fixpoint lookup (d : pydict) (key : pystr) : option json :=
  match d with
  | [] => None
  | (k, v) :: d' => if PyStr.eqb k key then Some v else lookup d' key
  end.

(** [obj.get(key, default)]. *)
Definition get (obj : json) (key : string) (default : json) : result json :=
  match obj with
  | JDict d =>
      match lookup d (u key) with
      | Some v => Ok v
      | None => Ok default
      end
  | _ => Raise (no_attribute obj "get")
  end.

(** [list(obj.values())]. *)
Definition values (obj : json) : result (list json) :=
  match obj with
  | JDict d => Ok (List.map snd d)
  | _ => Raise (no_attribute obj "values")
  end.

(** The sequence a [for] loop over [obj] runs through: the elements of a
    list, the one-character strings of a [str], the keys of a [dict]. *)
Definition iter (obj : json) : result (list json) :=
  match obj with
  | JList l => Ok l
  | JStr s => Ok (List.map (fun c => JStr [c]) s)
  | JDict d => Ok (List.map (fun kv => JStr (fst kv)) d)
  | _ => Raise (not_iterable obj)
  end.

(** [obj[0]].  The keys of a parsed JSON object are strings, so the integer
    [0] is never one of them. *)
Definition getitem0 (obj : json) : result json :=
  match obj with
  | JStr (c :: _) => Ok (JStr [c])
  | JStr [] => Raise (mkExc IndexError (u "string index out of range"))
  | JList (x :: _) => Ok x
  | JList [] => Raise (mkExc IndexError (u "list index out of range"))
  | JDict _ => Raise (mkExc KeyError (u "0"))
  | _ => Raise (not_subscriptable obj)
  end.

(** [obj[1:]].  A slice never goes out of range.  The routine evaluates it
    after [obj[0]], so it only ever runs on a [str] or a [list]; the other
    cases are there for totality. *)
Definition slice_from1 (obj : json) : result json :=
  match obj with
  | JStr s => Ok (JStr (List.tl s))
  | JList l => Ok (JList (List.tl l))
  | JDict _ => Raise (mkExc TypeError (u "unhashable type: 'slice'"))
  | _ => Raise (not_subscriptable obj)
  end.

(** [a + b] with [a] a [str]. *)
Definition str_add (a : pystr) (b : json) : result pystr :=
  match b with
  | JStr s => Ok (a ++ s)
  | _ => Raise (cannot_concatenate b)
  end.

Section Case.
Context {uc : UnicodeCase}.

(** [obj.lower()]. *)
Definition lower (obj : json) : result pystr :=
  match obj with
  | JStr s => Ok (str_lower s)
  | _ => Raise (no_attribute obj "lower")
  end.

(** [obj.upper()]. *)
Definition upper (obj : json) : result pystr :=
  match obj with
  | JStr s => Ok (str_upper s)
  | _ => Raise (no_attribute obj "upper")
  end.
End Case.

End Py.

(** ** extract_word_defs *)

(** What [open(json_file, "r", encoding="utf-8")] followed by [json.load]
    yields for a path: the exception raised (missing file, permission,
    undecodable bytes, malformed JSON, nesting too deep) or the document. *)
Definition filesystem := pystr -> exception + json.

(** The value the routine accumulates into and returns. *)
Definition results_t := list json.

(** What a call does from the caller's side. *)
Inductive outcome : Type :=
| Returned (r : results_t)
| Propagated (e : exception).

Definition vbar : pystr := u "|".

Definition diagnostic (e : exception) : pystr :=
  u "Error processing file: " ++ exc_msg e.

Section Extractor.
Context {uc : UnicodeCase}.
Variable fs : filesystem.

(** [with open(json_file, ...) as f: data = json.load(f)] *)
Definition load (json_file : pystr) : M json :=
  match fs json_file with
  | inl e => raise e
  | inr data => ret data
  end.

(** [definition[0].upper() + definition[1:]] *)
Definition capitalize (definition : json) : result pystr :=
  match Py.getitem0 definition with
  | Raise e => Raise e
  | Ok first =>
      match Py.upper first with
      | Raise e => Raise e
      | Ok up =>
          match Py.slice_from1 definition with
          | Raise e => Raise e
          | Ok rest => Py.str_add up rest
          end
      end
  end.

(** [f"{word.lower()}|{definition[0].upper() + definition[1:]}"] *)
Definition format_line (word definition : json) : result pystr :=
  match Py.lower word with
  | Raise e => Raise e
  | Ok w =>
      match capitalize definition with
      | Raise e => Raise e
      | Ok d => Ok (w ++ vbar ++ d)
      end
  end.

(** The body of [for meaning in meanings]. *)
Definition process_meaning (word meaning : json) : M unit :=
  definition <- lift (Py.get meaning "def" JNull) ;;
  if truthy definition then
    line <- lift (format_line word definition) ;;
    print line
  else ret tt.

(** The body of [for entry in data.values()]. *)
Definition process_entry (entry : json) : M unit :=
  word <- lift (Py.get entry "word" JNull) ;;
  meanings <- lift (Py.get entry "meanings" (JList [])) ;;
  if truthy word && truthy meanings then
    ms <- lift (Py.iter meanings) ;;
    for_each (process_meaning word) ms
  else ret tt.

(** The loop over the document. *)
Definition traverse (data : json) : M unit :=
  entries <- lift (Py.values data) ;;
  for_each process_entry entries.

(** The [try] block. *)
Definition try_block (json_file : pystr) : M results_t :=
  data <- load json_file ;;
  let results : results_t := [] in
  traverse data ;;
  ret results.

(** The whole function, with its [except Exception as e] handler. *)
Definition extract_word_defs (json_file : pystr) : stdout -> stdout * outcome :=
  fun out =>
    match try_block json_file out with
    | (out', Ok results) => (out', Returned results)
    | (out', Raise e) =>
        if is_Exception e then
          match print (diagnostic e) out' with
          | (out'', Ok _) => (out'', Returned [])
          | (out'', Raise e') => (out'', Propagated e')
          end
        else (out', Propagated e)
    end.

End Extractor.

(** ** Sample inputs *)

(** A file system with the one file [path], holding [doc]. *)
Definition single_file (path : pystr) (doc : json) : filesystem :=
  fun p =>
    if PyStr.eqb p path then inr doc
    else inl (mkExc OSError
                (u "[Errno 2] No such file or directory: '" ++ p ++ u "'")).

(** A file system in which every file is unreadable as JSON. *)
Definition broken_files (e : exception) : filesystem := fun _ => inl e.

Module Samples.

Definition meaning (d : string) : json := JDict [(u "def", JStr (u d))].

(** A meaning whose definition is the empty string. *)
Definition empty_def : json := JDict [(u "def", JStr [])].

(** The two entries of the end-to-end example, and its document. *)
Definition cat_entry_1 : json :=
  JDict [ (u "word", JStr (u "Cat"));
          (u "meanings",
           JList [ meaning "a small domesticated feline"; empty_def ]) ].

Definition cat_entry_2 : json :=
  JDict [ (u "word", JStr []); (u "meanings", JList [ meaning "ignored" ]) ].

Definition cat_doc : json :=
  JDict [ (u "1", cat_entry_1); (u "2", cat_entry_2) ].

(** A well-formed entry followed by one whose [word] is a number. *)
Definition mixed_doc : json :=
  JDict
    [ (u "1", JDict [ (u "word", JStr (u "Cat"));
                      (u "meanings", JList [ meaning "a pet" ]) ]);
      (u "2", JDict [ (u "word", JInt 42);
                      (u "meanings", JList [ meaning "the answer" ]) ]) ].

(** An entry whose definition starts with U+00DF. *)
Definition eszett_doc : json :=
  JDict
    [ (u "1", JDict [ (u "word", JStr (u "Eszett"));
                      (u "meanings",
                       JList [ JDict [(u "def", JStr (223%N :: u " is a letter"))] ]) ]) ].

(** The end-to-end document under other keys. *)
Definition cat_doc_rekeyed : json :=
  JDict [ (u "first", cat_entry_1); (u "second", cat_entry_2) ].

Definition path : pystr := u "words.json".

(** The first entry of the example followed by a null entry. *)
Definition null_entry_doc : pydict :=
  [ (u "1", cat_entry_1); (u "2", JNull); (u "3", cat_entry_1) ].

(** An entry whose word is a number. *)
Definition number_word_entry : json :=
  JDict [ (u "word", JInt 42);
          (u "meanings", JList [ empty_def; meaning "the answer" ]) ].

(** An entry whose meanings is a string instead of a list. *)
Definition string_meanings_entry : json :=
  JDict [ (u "word", JStr (u "Cat")); (u "meanings", JStr (u "feline")) ].

(** An entry of the documented shape one of whose definitions holds the
    lone surrogate U+D800: [a pet], an empty one, [x\ud800y], [a feline]. *)
Definition surrogate_def : json :=
  JDict [(u "def", JStr (120%N :: 55296%N :: u "y"))].

Definition surrogate_entry : json :=
  JDict [ (u "word", JStr (u "Cat"));
          (u "meanings",
           JList [ meaning "a pet"; empty_def; surrogate_def;
                   meaning "a feline" ]) ].

Definition surrogate_doc : pydict :=
  [ (u "1", surrogate_entry); (u "2", cat_entry_1) ].

(** A meaning whose definition is a list of strings. *)
Definition list_def : json :=
  JDict [ (u "def", JList [ JStr (u "a pet"); JStr (u "a feline") ]) ].

End Samples.

(** ** Shape predicates of the data model *)

(** The [def] of a meaning ([None] when the key is absent or the meaning is
    not a mapping). *)
Definition def_of (meaning : json) : json :=
  match Py.get meaning "def" JNull with
  | Ok v => v
  | Raise _ => JNull
  end.

(** The meaning is a mapping whose [def] is missing (falsy) or a string. *)
Definition meaning_ok (meaning : json) : bool :=
  match Py.get meaning "def" JNull with
  | Ok (JStr _) => true
  | Ok v => negb (truthy v)
  | Raise _ => false
  end.

(** The meaning has a non-empty [def]. *)
Definition nonempty_def (meaning : json) : bool := truthy (def_of meaning).

(** The meanings the loop of an entry runs through. *)
Definition entry_meanings (entry : json) : list json :=
  match Py.get entry "meanings" (JList []) with
  | Ok meanings =>
      match Py.iter meanings with
      | Ok ms => ms
      | Raise _ => []
      end
  | Raise _ => []
  end.

Section Relations.
Context {uc : UnicodeCase}.

(** [line] is the line of the pair ([w], [meaning]): the lower-cased word,
    a bar, the upper-case form of the first character of [def], and the
    rest of [def] as it is. *)
Definition line_of_meaning (w : pystr) (meaning : json) (line : pystr) : Prop :=
  exists c rest,
    Py.get meaning "def" JNull = Ok (JStr (c :: rest)) /\
    line = str_lower w ++ vbar ++ str_upper [c] ++ rest.

(** The pair (word [w], definition [def]) occurs in the document: some
    entry has the string [w] as its [word] and a meaning with the string
    [def] as its [def]. *)
Definition source_of (data : json) (w def : pystr) : Prop :=
  exists entries entry meanings ms meaning,
    Py.values data = Ok entries /\ In entry entries /\
    Py.get entry "word" JNull = Ok (JStr w) /\
    Py.get entry "meanings" (JList []) = Ok meanings /\
    Py.iter meanings = Ok ms /\ In meaning ms /\
    Py.get meaning "def" JNull = Ok (JStr def).

(** Case normalisation character by character: the form [w|d] where [w] is
    the lower-cased word, the first character of [d] is the upper-cased
    first character of [def], and the other characters of [d] are those of
    [def]. *)
Definition case_normalized_charwise (w def line : pystr) : Prop :=
  exists c rest d0,
    def = c :: rest /\ str_upper [c] = [d0] /\
    line = str_lower w ++ vbar ++ d0 :: rest.

(** Every data line of a run is case-normalised character by character
    with respect to a pair of the document. *)
Definition charwise_claim (fs : filesystem) (json_file : pystr) : Prop :=
  forall line, In line (fst (try_block fs json_file [])) ->
    exists data w def,
      fs json_file = inr data /\ source_of data w def /\
      case_normalized_charwise w def line.

(** A run that fails prints the diagnostic and nothing else. *)
Definition no_partial_output (fs : filesystem) (json_file : pystr) : Prop :=
  forall lines e, try_block fs json_file [] = (lines, Raise e) ->
    fst (extract_word_defs fs json_file []) = [diagnostic e].

(** The lines an entry prints, run on its own. *)
Definition lines_of_entry (entry : json) : list pystr :=
  fst (process_entry entry []).

(** Every meaning of the entry with a non-empty [def] has its line among
    those the entry prints. *)
Definition siblings_all_print (entry : json) : Prop :=
  forall w meaning,
    Py.get entry "word" JNull = Ok (JStr w) ->
    In meaning (entry_meanings entry) -> nonempty_def meaning = true ->
    exists line, line_of_meaning w meaning line /\ In line (lines_of_entry entry).

(** As many lines as meanings with a non-empty [def]. *)
Definition cardinality_holds (entry : json) : Prop :=
  List.length (lines_of_entry entry)
  = List.length (filter nonempty_def (entry_meanings entry)).

End Relations.

(** ** The entry point *)

(** The path compiled into [main]. *)
Definition hardcoded_path : pystr := u "/Users/mcd/tmp/allwords_wordset.json".

Section EntryPoint.
Context {uc : UnicodeCase}.
Variable fs : filesystem.

(** [main()]: calls the extractor on the fixed path and drops its result. *)
Definition main : M unit :=
  fun out =>
    match extract_word_defs fs hardcoded_path out with
    | (out', Returned _) => (out', Ok tt)
    | (out', Propagated e) => (out', Raise e)
    end.

(** The file run as a script ([if __name__ == "__main__": main()]): what it
    prints and its exit status, 0 when [main] returns and 1 when an exception
    reaches the top level. *)
Definition script : stdout * Z :=
  match main [] with
  | (out, Ok _) => (out, 0%Z)
  | (out, Raise _) => (out, 1%Z)
  end.

End EntryPoint.

(** ** The documented shape, and the output as a list comprehension *)

Definition is_str (x : json) : bool :=
  match x with JStr _ => true | _ => false end.

Definition is_list (x : json) : bool :=
  match x with JList _ => true | _ => false end.

Definition is_dict (x : json) : bool :=
  match x with JDict _ => true | _ => false end.

(** The meaning is a mapping whose [def] is falsy. *)
Definition falsy_def (meaning : json) : bool :=
  match Py.get meaning "def" JNull with
  | Ok v => negb (truthy v)
  | Raise _ => false
  end.


(** The classes of exception a document of unexpected shape gives rise to. *)
Definition is_shape_error (e : exception) : bool :=
  match exc_cls e with
  | AttributeError | TypeError | KeyError => true
  | _ => false
  end.

(** The classes of exception the traversal of a loaded document can meet:
    those of a document of unexpected shape, and the encoder's error that
    [print] raises on a line it cannot encode. *)
Definition is_traversal_error (e : exception) : bool :=
  match exc_cls e with
  | AttributeError | TypeError | KeyError | UnicodeEncodeError => true
  | _ => false
  end.

Section Comprehension.
Context {uc : UnicodeCase}.

(** The line of one meaning under the word [w], if it has one. *)
Definition expected_line (w : pystr) (meaning : json) : list pystr :=
  match def_of meaning with
  | JStr (c :: rest) => [str_lower w ++ vbar ++ str_upper [c] ++ rest]
  | _ => []
  end.



End Comprehension.

(** * Properties *)

(** ** A concrete interpreter to run the model on *)

Lemma excerpt_lower_ascii (s : pystr) :
  is_ascii s = true -> excerpt_lower s = List.map ascii_lower_cp s.
Proof. reflexivity. Qed.

Lemma excerpt_upper_ascii (s : pystr) :
  is_ascii s = true -> excerpt_upper s = List.map ascii_upper_cp s.
Proof.
  unfold excerpt_upper.
  induction s as [|c s IH]; simpl; intros H; [reflexivity|].
  apply andb_prop in H. destruct H as [Hc Hs].
  rewrite (IH Hs). unfold excerpt_upper_cp.
  destruct (N.eqb_spec c 223) as [->|_]; [discriminate Hc | reflexivity].
Qed.

#[export] Instance excerpt_case : UnicodeCase :=
  {| str_lower := excerpt_lower;
     str_upper := excerpt_upper;
     str_lower_ascii := excerpt_lower_ascii;
     str_upper_ascii := excerpt_upper_ascii |}.

(** ** The monad *)

Lemma bind_lift_ok {A B} (a : A) (k : A -> M B) out :
  bind (lift (Ok a)) k out = k a out.
Proof. reflexivity. Qed.

Lemma bind_lift_raise {A B} e (k : A -> M B) out :
  bind (lift (Raise e)) k out = (out, Raise e).
Proof. reflexivity. Qed.

Lemma uniform_ret {A} (a : A) : uniform (ret a).
Proof. intros out. unfold ret. simpl. now rewrite app_nil_r. Qed.

Lemma uniform_lift {A} (r : result A) : uniform (lift r).
Proof. intros out. unfold lift. simpl. now rewrite app_nil_r. Qed.

Lemma uniform_raise {A} e : uniform (@raise A e).
Proof. intros out. unfold raise. simpl. now rewrite app_nil_r. Qed.

Lemma uniform_print s : uniform (print s).
Proof.
  intros out. unfold print.
  destruct (encodable s); simpl; [reflexivity | now rewrite app_nil_r].
Qed.

(** ** What the stream accepts *)

Lemma print_ok s out :
  encodable s = true -> print s out = (out ++ [s], Ok tt).
Proof. intros H. unfold print. rewrite H. reflexivity. Qed.

Lemma print_raise s out :
  encodable s = false -> print s out = (out, Raise (encode_error s)).
Proof. intros H. unfold print. rewrite H. reflexivity. Qed.

Lemma encodable_app a b :
  encodable (a ++ b) = encodable a && encodable b.
Proof. unfold encodable. apply forallb_app. Qed.

Lemma hex_digit_not_surrogate n :
  (n < 16)%N -> is_surrogate (hex_digit n) = false.
Proof.
  intros H. unfold is_surrogate, hex_digit.
  destruct (N.ltb_spec n 10).
  - destruct (N.leb_spec 55296 (48 + n)); [lia | reflexivity].
  - destruct (N.leb_spec 55296 (87 + n)); [lia | reflexivity].
Qed.

Lemma escape_cp_encodable c : encodable (escape_cp c) = true.
Proof.
  unfold escape_cp. destruct (is_surrogate c) eqn:E.
  - unfold encodable. simpl.
    rewrite !hex_digit_not_surrogate by (apply N.mod_lt; discriminate).
    reflexivity.
  - unfold encodable. simpl. rewrite E. reflexivity.
Qed.

Lemma escape_encodable s : encodable (escape s) = true.
Proof.
  unfold escape. induction s as [|c s IH]; [reflexivity|].
  simpl. rewrite encodable_app, escape_cp_encodable. exact IH.
Qed.

(** A text without surrogates is shown as it is. *)
Lemma escape_id s : encodable s = true -> escape s = s.
Proof.
  unfold escape. induction s as [|c s IH]; [reflexivity|].
  simpl. intros H. apply andb_prop in H. destruct H as [Hc Hs].
  rewrite (IH Hs). unfold escape_cp.
  apply negb_true_iff in Hc. rewrite Hc. reflexivity.
Qed.

(** The diagnostic of the handler can always be written. *)
Lemma diagnostic_encodable e : encodable (diagnostic e) = true.
Proof.
  unfold diagnostic, exc_msg. rewrite encodable_app, escape_encodable.
  reflexivity.
Qed.

Lemma encode_error_class s : exc_cls (encode_error s) = UnicodeEncodeError.
Proof.
  unfold encode_error.
  destruct (first_surrogate s 0) as [[[start c] rest]|]; [|reflexivity].
  simpl. destruct (N.eqb (surrogate_run rest) 0); reflexivity.
Qed.

(** [print] raises nothing but the encoder's exception. *)
Lemma print_raise_class s out out' e :
  print s out = (out', Raise e) -> exc_cls e = UnicodeEncodeError.
Proof.
  unfold print. destruct (encodable s); [discriminate|].
  intros H. inversion H. apply encode_error_class.
Qed.

Lemma print_diagnostic e out :
  print (diagnostic e) out = (out ++ [diagnostic e], Ok tt).
Proof. apply print_ok. apply diagnostic_encodable. Qed.

Lemma uniform_bind {A B} (m : M A) (k : A -> M B) :
  uniform m -> (forall a, uniform (k a)) -> uniform (bind m k).
Proof.
  intros Hm Hk out. unfold bind.
  rewrite (Hm out). destruct (m []) as [o1 [a|e]]; simpl.
  - rewrite (Hk a (out ++ o1)), (Hk a o1). simpl.
    now rewrite app_assoc.
  - reflexivity.
Qed.

Lemma uniform_for_each {A} (body : A -> M unit) xs :
  (forall x, uniform (body x)) -> uniform (for_each body xs).
Proof.
  intros Hb. induction xs as [|x xs IH]; simpl.
  - apply uniform_ret.
  - apply uniform_bind; [apply Hb | intros _; exact IH].
Qed.

(** ** Loops *)

Lemma for_each_cons {A} (body : A -> M unit) x xs out :
  for_each body (x :: xs) out
  = match body x out with
    | (out', Ok _) => for_each body xs out'
    | (out', Raise e) => (out', Raise e)
    end.
Proof. reflexivity. Qed.

Lemma for_each_app {A} (body : A -> M unit) xs ys out :
  for_each body (xs ++ ys) out
  = match for_each body xs out with
    | (out', Ok _) => for_each body ys out'
    | (out', Raise e) => (out', Raise e)
    end.
Proof.
  revert out. induction xs as [|x xs IH]; intros out; simpl.
  - reflexivity.
  - unfold bind. destruct (body x out) as [o [[]|e]]; [apply IH | reflexivity].
Qed.

(** A step that prints nothing and succeeds can be dropped from a loop. *)
Lemma for_each_skip {A} (body : A -> M unit) xs x ys :
  (forall out, body x out = (out, Ok tt)) ->
  forall out, for_each body (xs ++ x :: ys) out = for_each body (xs ++ ys) out.
Proof.
  intros Hx out. rewrite !for_each_app.
  destruct (for_each body xs out) as [o [[]|e]]; [|reflexivity].
  rewrite for_each_cons, Hx. reflexivity.
Qed.

(** What a loop prints is what its steps print, in order. *)
Lemma for_each_lines {A} (body : A -> M unit) (P : A -> pystr -> Prop) :
  (forall x out out' r, body x out = (out', r) ->
     exists ls, out' = out ++ ls /\ Forall (P x) ls) ->
  forall xs out out' r, for_each body xs out = (out', r) ->
     exists ls, out' = out ++ ls /\
                Forall (fun l => exists x, In x xs /\ P x l) ls.
Proof.
  intros Hb. induction xs as [|x xs IH]; intros out out' r H.
  - inversion H; subst. exists []. split; [now rewrite app_nil_r | constructor].
  - rewrite for_each_cons in H.
    destruct (body x out) as [o1 r1] eqn:E1.
    destruct (Hb _ _ _ _ E1) as (l1 & -> & F1).
    assert (F1' : Forall (fun l => exists y, In y (x :: xs) /\ P y l) l1).
    { eapply Forall_impl; [|exact F1]. intros l Hl. exists x. split; [now left | exact Hl]. }
    destruct r1 as [[]|e].
    + destruct (IH _ _ _ H) as (l2 & -> & F2).
      exists (l1 ++ l2). split; [now rewrite app_assoc|].
      apply Forall_app. split; [exact F1'|].
      eapply Forall_impl; [|exact F2].
      intros l (y & Hy & Hl). exists y. split; [now right | exact Hl].
    + inversion H; subst. exists l1. split; [reflexivity | exact F1'].
Qed.

(** ** The formatting step *)

Section Steps.
Context {uc : UnicodeCase}.

(** Only a non-empty string gets through the capitalization. *)
Lemma capitalize_ok definition d :
  capitalize definition = Ok d ->
  exists c rest, definition = JStr (c :: rest) /\ d = str_upper [c] ++ rest.
Proof.
  unfold capitalize.
  destruct definition as [ | b | z | f | s | l | dd]; simpl; try discriminate.
  - destruct s as [|c rest]; simpl; [discriminate|].
    intros H. inversion H. eauto.
  - destruct l as [|x l]; simpl; [discriminate|].
    destruct (Py.upper x); simpl; discriminate.
Qed.

Lemma format_line_ok word definition line :
  format_line word definition = Ok line ->
  exists w c rest,
    word = JStr w /\ definition = JStr (c :: rest) /\
    line = str_lower w ++ vbar ++ str_upper [c] ++ rest.
Proof.
  unfold format_line.
  destruct word as [ | b | z | f | w | l | dd]; simpl; try discriminate.
  destruct (capitalize definition) as [d|e] eqn:E; [|discriminate].
  intros H. inversion H.
  destruct (capitalize_ok _ E) as (c & rest & -> & ->).
  exists w, c, rest. auto.
Qed.

(** A meaning prints nothing, or exactly its own line. *)
Lemma process_meaning_cases word meaning out :
  (exists r, process_meaning word meaning out = (out, r)) \/
  (exists w line, word = JStr w /\ line_of_meaning w meaning line /\
                  process_meaning word meaning out = (out ++ [line], Ok tt)).
Proof.
  unfold process_meaning.
  destruct (Py.get meaning "def" JNull) as [definition|e] eqn:G.
  2:{ left. eexists. reflexivity. }
  rewrite bind_lift_ok.
  destruct (truthy definition) eqn:T.
  2:{ left. eexists. reflexivity. }
  destruct (format_line word definition) as [line|e] eqn:F.
  2:{ left. eexists. reflexivity. }
  rewrite bind_lift_ok.
  destruct (encodable line) eqn:E.
  2:{ left. eexists. apply print_raise. exact E. }
  right. destruct (format_line_ok _ _ F) as (w & c & rest & -> & -> & ->).
  exists w. eexists. split; [reflexivity|]. split; [|apply print_ok; exact E].
  exists c, rest. auto.
Qed.

(** A meaning whose [def] is falsy prints nothing and raises nothing. *)
Lemma process_meaning_falsy word meaning v out :
  Py.get meaning "def" JNull = Ok v -> truthy v = false ->
  process_meaning word meaning out = (out, Ok tt).
Proof.
  intros G T. unfold process_meaning. rewrite G, bind_lift_ok, T. reflexivity.
Qed.

(** A meaning whose [def] is a non-empty string hands its line to
    [print]. *)
Lemma process_meaning_print w meaning c rest out :
  Py.get meaning "def" JNull = Ok (JStr (c :: rest)) ->
  process_meaning (JStr w) meaning out
  = print (str_lower w ++ vbar ++ str_upper [c] ++ rest) out.
Proof.
  intros G. unfold process_meaning. rewrite G, bind_lift_ok. reflexivity.
Qed.

Lemma uniform_process_meaning word meaning :
  uniform (process_meaning word meaning).
Proof.
  unfold process_meaning.
  apply uniform_bind; [apply uniform_lift|]. intros definition.
  destruct (truthy definition); [|apply uniform_ret].
  apply uniform_bind; [apply uniform_lift | intros; apply uniform_print].
Qed.

Lemma uniform_process_entry entry : uniform (process_entry entry).
Proof.
  unfold process_entry.
  apply uniform_bind; [apply uniform_lift|]. intros word.
  apply uniform_bind; [apply uniform_lift|]. intros meanings.
  destruct (truthy word && truthy meanings); [|apply uniform_ret].
  apply uniform_bind; [apply uniform_lift|]. intros ms.
  apply uniform_for_each. intros m. apply uniform_process_meaning.
Qed.

Lemma uniform_traverse data : uniform (traverse data).
Proof.
  unfold traverse.
  apply uniform_bind; [apply uniform_lift|]. intros entries.
  apply uniform_for_each. apply uniform_process_entry.
Qed.

(** A loop of [print]s writes its lines when all can be encoded. *)
Lemma for_each_print_ok ls out :
  forallb encodable ls = true -> for_each print ls out = (out ++ ls, Ok tt).
Proof.
  revert out. induction ls as [|l ls IH]; intros out H.
  - simpl. unfold ret. now rewrite app_nil_r.
  - simpl in H. apply andb_prop in H. destruct H as [Hl Hls].
    rewrite for_each_cons, (print_ok l out Hl), (IH _ Hls).
    now rewrite <- app_assoc.
Qed.


Lemma expected_line_str w m c rest :
  Py.get m "def" JNull = Ok (JStr (c :: rest)) ->
  expected_line w m = [str_lower w ++ vbar ++ str_upper [c] ++ rest].
Proof. intros G. unfold expected_line, def_of. rewrite G. reflexivity. Qed.

Lemma expected_line_falsy w m v :
  Py.get m "def" JNull = Ok v -> truthy v = false ->
  expected_line w m = [].
Proof.
  intros G T. unfold expected_line, def_of. rewrite G.
  destruct v as [ | b | z | f | s | l | dd]; try reflexivity.
  destruct s; [reflexivity | discriminate T].
Qed.

(** A well-shaped meaning with a truthy [def] has a non-empty string. *)
Lemma meaning_ok_truthy m v :
  meaning_ok m = true -> Py.get m "def" JNull = Ok v -> truthy v = true ->
  exists c rest, v = JStr (c :: rest).
Proof.
  unfold meaning_ok. intros Hm G T. rewrite G in Hm.
  destruct v as [ | b | z | f | s | l | dd]; simpl in *;
    try (rewrite T in Hm; discriminate); try discriminate.
  destruct s as [|c rest]; [discriminate|]. eauto.
Qed.

(** A well-shaped meaning prints its expected lines: none or one. *)
Lemma process_meaning_expected w m out :
  meaning_ok m = true ->
  process_meaning (JStr w) m out = for_each print (expected_line w m) out.
Proof.
  intros Hm.
  destruct (Py.get m "def" JNull) as [v|e] eqn:G.
  2:{ unfold meaning_ok in Hm. rewrite G in Hm. discriminate. }
  destruct (truthy v) eqn:T.
  - destruct (meaning_ok_truthy m Hm G T) as (c & rest & ->).
    rewrite (process_meaning_print w m out G), (expected_line_str w m G).
    rewrite for_each_cons.
    destruct (print (str_lower w ++ vbar ++ str_upper [c] ++ rest) out)
      as [o [[]|e]]; reflexivity.
  - rewrite (process_meaning_falsy (JStr w) m out G T).
    rewrite (expected_line_falsy w m G T). reflexivity.
Qed.

(** The loop over well-shaped meanings is the loop of [print]s over their
    expected lines. *)
Lemma for_each_meanings_print w ms out :
  forallb meaning_ok ms = true ->
  for_each (process_meaning (JStr w)) ms out
  = for_each print (flat_map (expected_line w) ms) out.
Proof.
  revert out. induction ms as [|m ms IH]; intros out H; [reflexivity|].
  simpl in H. apply andb_prop in H. destruct H as [Hm Hms].
  simpl flat_map. rewrite for_each_cons, for_each_app.
  rewrite (process_meaning_expected w m out Hm).
  destruct (for_each print (expected_line w m) out) as [o [[]|e]];
    [apply IH; exact Hms | reflexivity].
Qed.

(** The expected lines are the lines of the meanings with a non-empty
    [def], in order. *)
Lemma expected_lines_related w ms :
  forallb meaning_ok ms = true ->
  Forall2 (line_of_meaning w) (filter nonempty_def ms)
          (flat_map (expected_line w) ms).
Proof.
  induction ms as [|m ms IH]; intros H; [constructor|].
  simpl in H. apply andb_prop in H. destruct H as [Hm Hms].
  simpl. unfold nonempty_def at 1, def_of.
  destruct (Py.get m "def" JNull) as [v|e] eqn:G.
  2:{ unfold meaning_ok in Hm. rewrite G in Hm. discriminate. }
  destruct (truthy v) eqn:T.
  - destruct (meaning_ok_truthy m Hm G T) as (c & rest & ->).
    rewrite (expected_line_str w m G). simpl.
    constructor; [|exact (IH Hms)]. exists c, rest. auto.
  - rewrite (expected_line_falsy w m G T). simpl. exact (IH Hms).
Qed.

(** The loop over well-shaped meanings whose lines can all be encoded
    prints the lines of those with a non-empty [def], in order, and does not
    raise. *)
Lemma for_each_meanings_ok w ms out :
  forallb meaning_ok ms = true ->
  forallb encodable (flat_map (expected_line w) ms) = true ->
  exists lines,
    for_each (process_meaning (JStr w)) ms out = (out ++ lines, Ok tt) /\
    Forall2 (line_of_meaning w) (filter nonempty_def ms) lines.
Proof.
  intros H E. exists (flat_map (expected_line w) ms). split.
  - rewrite (for_each_meanings_print w ms out H).
    apply for_each_print_ok. exact E.
  - apply expected_lines_related. exact H.
Qed.

End Steps.

(** ** Entries *)

Section Entries.
Context {uc : UnicodeCase}.

(** An entry whose [word] or [meanings] is falsy is skipped. *)
Lemma process_entry_skip entry word meanings out :
  Py.get entry "word" JNull = Ok word ->
  Py.get entry "meanings" (JList []) = Ok meanings ->
  truthy word = false \/ truthy meanings = false ->
  process_entry entry out = (out, Ok tt).
Proof.
  intros Gw Gm H. unfold process_entry.
  rewrite Gw, bind_lift_ok, Gm, bind_lift_ok.
  destruct H as [-> | ->]; [reflexivity|].
  rewrite andb_false_r. reflexivity.
Qed.

(** An entry that passes the guard runs the loop over its meanings. *)
Lemma process_entry_run entry word meanings ms out :
  Py.get entry "word" JNull = Ok word ->
  Py.get entry "meanings" (JList []) = Ok meanings ->
  truthy word = true -> truthy meanings = true ->
  Py.iter meanings = Ok ms ->
  process_entry entry out = for_each (process_meaning word) ms out.
Proof.
  intros Gw Gm Tw Tm I. unfold process_entry.
  rewrite Gw, bind_lift_ok, Gm, bind_lift_ok, Tw, Tm. simpl.
  rewrite I, bind_lift_ok. reflexivity.
Qed.

(** Every line an entry prints is the line of one of its meanings, under
    the entry's word. *)
Lemma process_entry_lines entry out out' r :
  process_entry entry out = (out', r) ->
  exists ls, out' = out ++ ls /\
    Forall (fun line => exists w meanings ms meaning,
              Py.get entry "word" JNull = Ok (JStr w) /\
              Py.get entry "meanings" (JList []) = Ok meanings /\
              Py.iter meanings = Ok ms /\ In meaning ms /\
              line_of_meaning w meaning line) ls.
Proof.
  assert (Nil : forall o (x : result unit), (o, x) = (out', r) ->
            exists ls : list pystr, out' = o ++ ls /\ Forall
              (fun line => exists w meanings ms meaning,
                 Py.get entry "word" JNull = Ok (JStr w) /\
                 Py.get entry "meanings" (JList []) = Ok meanings /\
                 Py.iter meanings = Ok ms /\ In meaning ms /\
                 line_of_meaning w meaning line) ls).
  { intros o x E. inversion E; subst. exists [].
    split; [now rewrite app_nil_r | constructor]. }
  unfold process_entry.
  destruct (Py.get entry "word" JNull) as [word|e] eqn:Gw; [|apply Nil].
  rewrite bind_lift_ok.
  destruct (Py.get entry "meanings" (JList [])) as [meanings|e] eqn:Gm; [|apply Nil].
  rewrite bind_lift_ok.
  destruct (truthy word && truthy meanings); [|apply Nil].
  destruct (Py.iter meanings) as [ms|e] eqn:I; [|apply Nil].
  rewrite bind_lift_ok. intros H.
  destruct (for_each_lines (process_meaning word)
              (fun m l => exists w, word = JStr w /\ line_of_meaning w m l))
    with (xs := ms) (out := out) (out' := out') (r := r)
    as (ls & E & F); [|exact H|].
  - intros m o o' r' Hm.
    destruct (process_meaning_cases word m o) as [(r0 & E0) | (w & line & Ew & L & E0)];
      rewrite E0 in Hm; inversion Hm; subst.
    + exists []. split; [now rewrite app_nil_r | constructor].
    + exists [line]. split; [reflexivity|]. repeat constructor. eauto.
  - exists ls. split; [exact E|].
    eapply Forall_impl; [|exact F].
    intros l (m & Hin & w & -> & L). exists w, meanings, ms, m. auto.
Qed.

End Entries.

(** C2: an entry whose [word] is absent, null or the empty string, or whose
    [meanings] is absent or the empty list, prints no line and raises
    nothing, whatever its meanings hold; the document behaves as if the
    entry were not there. *)
Theorem skip_entry_without_word_or_meanings
    {uc : UnicodeCase} (d : pydict) :
  (Py.lookup d (u "word") = None \/
   Py.lookup d (u "word") = Some JNull \/
   Py.lookup d (u "word") = Some (JStr [])) \/
  (Py.lookup d (u "meanings") = None \/
   Py.lookup d (u "meanings") = Some (JList [])) ->
  (forall out, process_entry (JDict d) out = (out, Ok tt)) /\
  (forall before key after out,
     traverse (JDict (before ++ (key, JDict d) :: after)) out
     = traverse (JDict (before ++ after)) out).
Proof.
  intros H.
  assert (Skip : forall out, process_entry (JDict d) out = (out, Ok tt)).
  { intros out. unfold process_entry, Py.get.
    destruct H as [[Hw | [Hw | Hw]] | [Hm | Hm]].
    - rewrite Hw. rewrite bind_lift_ok.
      destruct (Py.lookup d (u "meanings")); reflexivity.
    - rewrite Hw. rewrite bind_lift_ok.
      destruct (Py.lookup d (u "meanings")); reflexivity.
    - rewrite Hw. rewrite bind_lift_ok.
      destruct (Py.lookup d (u "meanings")); reflexivity.
    - rewrite Hm.
      destruct (Py.lookup d (u "word")) as [w|]; rewrite !bind_lift_ok;
        rewrite andb_false_r; reflexivity.
    - rewrite Hm.
      destruct (Py.lookup d (u "word")) as [w|]; rewrite !bind_lift_ok;
        rewrite andb_false_r; reflexivity. }
  split; [exact Skip|].
  intros before key after out. unfold traverse, Py.values.
  rewrite !bind_lift_ok, !map_app. simpl.
  apply for_each_skip. exact Skip.
Qed.

Lemma skip_entry_without_word_or_meanings_witness :
  (forall out, process_entry Samples.cat_entry_2 out = (out, Ok tt)) /\
  (forall before key after out,
     traverse (JDict (before ++ (key, Samples.cat_entry_2) :: after)) out
     = traverse (JDict (before ++ after)) out).
Proof.
  apply (@skip_entry_without_word_or_meanings excerpt_case).
  left. right. right. reflexivity.
Defined.

(** C3, as amended: inside an entry, a meaning whose [def] is falsy
    (absent, null, the empty string) prints no line and raises nothing, and
    the loop over the meanings goes on exactly as if it were not there; in
    an entry that is processed (non-empty word) whose lines can all be
    encoded by the output stream, every sibling with a non-empty [def] still
    prints its line, in order. *)
Theorem skip_meaning_without_def
    {uc : UnicodeCase} (m v : json) (ms1 ms2 : list json) :
  Py.get m "def" JNull = Ok v -> truthy v = false ->
  (forall word out, process_meaning word m out = (out, Ok tt)) /\
  (forall word out,
     for_each (process_meaning word) (ms1 ++ m :: ms2) out
     = for_each (process_meaning word) (ms1 ++ ms2) out) /\
  (forall entry w c cs out,
     Py.get entry "word" JNull = Ok (JStr w) -> w = c :: cs ->
     Py.get entry "meanings" (JList []) = Ok (JList (ms1 ++ m :: ms2)) ->
     forallb meaning_ok (ms1 ++ ms2) = true ->
     forallb encodable (flat_map (expected_line w) (ms1 ++ ms2)) = true ->
     exists lines,
       process_entry entry out = (out ++ lines, Ok tt) /\
       Forall2 (line_of_meaning w) (filter nonempty_def (ms1 ++ ms2)) lines).
Proof.
  intros G T.
  assert (Skip : forall word out, process_meaning word m out = (out, Ok tt)).
  { intros word out. exact (process_meaning_falsy word m out G T). }
  split; [exact Skip|]. split.
  - intros word out. apply for_each_skip. apply Skip.
  - intros entry w c cs out Gw Ew Gm Hok Henc.
    rewrite (@process_entry_run _ entry (JStr w) (JList (ms1 ++ m :: ms2))
               (ms1 ++ m :: ms2) out Gw Gm).
    + rewrite for_each_skip by apply Skip.
      apply for_each_meanings_ok; assumption.
    + subst w. reflexivity.
    + destruct ms1; reflexivity.
    + reflexivity.
Qed.

Lemma skip_meaning_without_def_witness :
  exists lines,
    process_entry Samples.cat_entry_1 [] = ([] ++ lines, Ok tt) /\
    Forall2 (line_of_meaning (u "Cat"))
            (filter nonempty_def
                    ([Samples.meaning "a small domesticated feline"] ++ []))
            lines.
Proof.
  destruct (@skip_meaning_without_def excerpt_case Samples.empty_def (JStr [])
              [Samples.meaning "a small domesticated feline"] []
              eq_refl eq_refl) as (_ & _ & H).
  apply (H Samples.cat_entry_1 (u "Cat") 67%N (u "at") []); reflexivity.
Defined.

(** C3 as first stated fails on an entry of the documented shape with a
    definition that holds a lone surrogate: the first line is printed, the
    meaning with the empty [def] is skipped, [print] raises on the line with
    the surrogate, the loop ends there, and the sibling [a feline] after it,
    whose [def] is not empty, prints no line. *)
Lemma sibling_after_unencodable_line_is_lost :
  ~ siblings_all_print Samples.surrogate_entry.
Proof.
  intros H.
  destruct (H (u "Cat") (Samples.meaning "a feline")) as (line & L & Hin).
  - reflexivity.
  - right. right. right. left. reflexivity.
  - reflexivity.
  - destruct L as (c & rest & G & ->).
    vm_compute in G. injection G as <- <-.
    vm_compute in Hin. destruct Hin as [E | []].
    discriminate E.
Qed.

(** C4, as amended: an entry of the documented shape (its meanings are
    mappings whose [def] is missing or a string) whose word is a non-empty
    string and whose lines can all be encoded by the output stream prints as
    many lines as it has meanings with a non-empty [def], and raises
    nothing. *)
Theorem cardinality_of_entry
    {uc : UnicodeCase} (entry : json) (w : pystr) (ms : list json) :
  Py.get entry "word" JNull = Ok (JStr w) -> w <> [] ->
  Py.get entry "meanings" (JList []) = Ok (JList ms) ->
  forallb meaning_ok ms = true ->
  forallb encodable (flat_map (expected_line w) ms) = true ->
  (forall out, exists lines,
      process_entry entry out = (out ++ lines, Ok tt) /\
      List.length lines = List.length (filter nonempty_def ms)) /\
  cardinality_holds entry.
Proof.
  intros Gw Hw Gm Hok Henc.
  assert (Run : forall out, exists lines,
             process_entry entry out = (out ++ lines, Ok tt) /\
             List.length lines = List.length (filter nonempty_def ms)).
  { intros out. destruct ms as [|m ms].
    - exists []. split; [|reflexivity].
      rewrite app_nil_r.
      apply (process_entry_skip entry out Gw Gm). right. reflexivity.
    - rewrite (@process_entry_run _ entry (JStr w) (JList (m :: ms)) (m :: ms) out Gw Gm);
        [ | destruct w; [contradiction | reflexivity] | reflexivity | reflexivity ].
      destruct (for_each_meanings_ok w (m :: ms) out Hok Henc) as (lines & E & F).
      exists lines. split; [exact E|].
      symmetry. exact (Forall2_length F). }
  split; [exact Run|].
  unfold cardinality_holds, lines_of_entry, entry_meanings.
  rewrite Gm. simpl Py.iter. cbv iota.
  destruct (Run []) as (lines & E & L). rewrite E. simpl. exact L.
Qed.

Lemma cardinality_of_entry_witness :
  (forall out, exists lines,
      process_entry Samples.cat_entry_1 out = (out ++ lines, Ok tt) /\
      List.length lines
      = List.length
          (filter nonempty_def
             [Samples.meaning "a small domesticated feline"; Samples.empty_def])) /\
  cardinality_holds Samples.cat_entry_1.
Proof.
  apply (@cardinality_of_entry excerpt_case Samples.cat_entry_1 (u "Cat")
           [Samples.meaning "a small domesticated feline"; Samples.empty_def]).
  - reflexivity.
  - discriminate.
  - reflexivity.
  - reflexivity.
  - reflexivity.
Defined.

(** C4 as first stated fails on the second entry of the end-to-end example:
    its word is empty, so it prints nothing, and yet it has one meaning with
    a non-empty [def]. *)
Lemma cardinality_fails_on_empty_word :
  ~ cardinality_holds Samples.cat_entry_2.
Proof. unfold cardinality_holds. vm_compute. discriminate. Qed.

(** It also fails on an entry with a non-empty word when a line cannot be
    encoded: of the three meanings with a non-empty [def] only the one
    before the lone surrogate is printed. *)
Lemma cardinality_fails_on_lone_surrogate :
  ~ cardinality_holds Samples.surrogate_entry.
Proof. unfold cardinality_holds. vm_compute. discriminate. Qed.

(** ** No index out of range *)

Section Range.
Context {uc : UnicodeCase}.

Lemma capitalize_no_index_error definition e :
  truthy definition = true ->
  capitalize definition = Raise e -> exc_cls e <> IndexError.
Proof.
  unfold capitalize.
  destruct definition as [ | b | z | f | s | l | dd]; simpl; intros T H;
    try discriminate T; try (inversion H; subst; simpl; discriminate).
  - destruct s as [|c rest]; [discriminate T | discriminate H].
  - destruct l as [|x l]; [discriminate T|]. simpl in H.
    destruct x as [ | b | z | f | s | l' | dd]; simpl in H;
      inversion H; subst; simpl; discriminate.
Qed.

Lemma get_raise obj key default e :
  Py.get obj key default = Raise e -> exc_cls e = AttributeError.
Proof.
  destruct obj; simpl; intros H; try (inversion H; reflexivity).
  destruct (Py.lookup d (u key)); discriminate H.
Qed.

Lemma lower_raise obj e :
  Py.lower obj = Raise e -> exc_cls e = AttributeError.
Proof. destruct obj; simpl; intros H; inversion H; reflexivity. Qed.

Lemma iter_raise obj e :
  Py.iter obj = Raise e -> exc_cls e = TypeError.
Proof. destruct obj; simpl; intros H; inversion H; reflexivity. Qed.

Lemma values_raise obj e :
  Py.values obj = Raise e -> exc_cls e = AttributeError.
Proof. destruct obj; simpl; intros H; inversion H; reflexivity. Qed.

Lemma process_meaning_no_index_error word meaning out out' e :
  process_meaning word meaning out = (out', Raise e) ->
  exc_cls e <> IndexError.
Proof.
  unfold process_meaning.
  destruct (Py.get meaning "def" JNull) as [definition|e0] eqn:G.
  - rewrite bind_lift_ok.
    destruct (truthy definition) eqn:T; [|discriminate].
    unfold format_line.
    destruct (Py.lower word) as [lw|e1] eqn:L.
    + destruct (capitalize definition) as [d|e2] eqn:C.
      * rewrite bind_lift_ok. intros H.
        rewrite (print_raise_class _ _ H). discriminate.
      * rewrite bind_lift_raise. intros H. inversion H; subst.
        exact (capitalize_no_index_error definition T C).
    + rewrite bind_lift_raise. intros H. inversion H; subst.
      rewrite (lower_raise _ L). discriminate.
  - rewrite bind_lift_raise. intros H. inversion H; subst.
    rewrite (get_raise _ _ _ G). discriminate.
Qed.

Lemma for_each_raise {A} (body : A -> M unit) xs out out' e :
  for_each body xs out = (out', Raise e) ->
  exists x o, In x xs /\ body x o = (out', Raise e).
Proof.
  revert out. induction xs as [|x xs IH]; intros out H.
  - discriminate H.
  - rewrite for_each_cons in H.
    destruct (body x out) as [o1 [[]|e1]] eqn:E.
    + destruct (IH _ H) as (y & o & Hin & Hy).
      exists y, o. split; [now right | exact Hy].
    + inversion H; subst. exists x, out. split; [now left | exact E].
Qed.

Lemma process_entry_no_index_error entry out out' e :
  process_entry entry out = (out', Raise e) -> exc_cls e <> IndexError.
Proof.
  unfold process_entry.
  destruct (Py.get entry "word" JNull) as [word|e0] eqn:Gw.
  2:{ rewrite bind_lift_raise. intros H. inversion H; subst.
      rewrite (get_raise _ _ _ Gw). discriminate. }
  rewrite bind_lift_ok.
  destruct (Py.get entry "meanings" (JList [])) as [meanings|e0] eqn:Gm.
  2:{ rewrite bind_lift_raise. intros H. inversion H; subst.
      rewrite (get_raise _ _ _ Gm). discriminate. }
  rewrite bind_lift_ok.
  destruct (truthy word && truthy meanings); [|discriminate].
  destruct (Py.iter meanings) as [ms|e0] eqn:I.
  - rewrite bind_lift_ok. intros H.
    destruct (for_each_raise _ _ _ H) as (m & o & _ & Hm).
    exact (process_meaning_no_index_error _ _ _ Hm).
  - rewrite bind_lift_raise. intros H. inversion H; subst.
    rewrite (iter_raise _ I). discriminate.
Qed.

Lemma traverse_no_index_error data out out' e :
  traverse data out = (out', Raise e) -> exc_cls e <> IndexError.
Proof.
  unfold traverse.
  destruct (Py.values data) as [entries|e0] eqn:V.
  - rewrite bind_lift_ok. intros H.
    destruct (for_each_raise _ _ _ H) as (x & o & _ & Hx).
    exact (process_entry_no_index_error _ _ Hx).
  - rewrite bind_lift_raise. intros H. inversion H; subst.
    rewrite (values_raise _ V). discriminate.
Qed.

End Range.

(** C9: the capitalization is only reached with a truthy [def].  A truthy
    string has a first character, so [def[0]] and [def[1:]] are defined and
    the step yields the capitalized text; and whatever the shape of the
    document, neither the step nor the traversal as a whole ever raises an
    index-out-of-range error. *)
Theorem capitalize_never_out_of_range {uc : UnicodeCase} :
  (forall definition, truthy definition = true ->
     (forall s, definition = JStr s ->
        exists c rest,
          s = c :: rest /\
          Py.getitem0 definition = Ok (JStr [c]) /\
          Py.slice_from1 definition = Ok (JStr rest) /\
          capitalize definition = Ok (str_upper [c] ++ rest)) /\
     (forall e, Py.getitem0 definition = Raise e -> exc_cls e <> IndexError) /\
     (forall e, capitalize definition = Raise e -> exc_cls e <> IndexError)) /\
  (forall word meaning out out' e,
     process_meaning word meaning out = (out', Raise e) ->
     exc_cls e <> IndexError) /\
  (forall data out out' e,
     traverse data out = (out', Raise e) -> exc_cls e <> IndexError).
Proof.
  split; [|split].
  - intros definition T. split; [|split].
    + intros s ->. destruct s as [|c rest]; [discriminate T|].
      exists c, rest. repeat split.
    + intros e H.
      destruct definition as [ | b | z | f | s | l | dd]; simpl in *;
        try discriminate T; try (inversion H; subst; simpl; discriminate).
      * destruct s; [discriminate T | discriminate H].
      * destruct l; [discriminate T | discriminate H].
    + intros e. apply capitalize_no_index_error. exact T.
  - intros word meaning out out' e. apply process_meaning_no_index_error.
  - intros data out out' e. apply traverse_no_index_error.
Qed.

Lemma capitalize_never_out_of_range_witness :
  exists c rest,
    u "a pet" = c :: rest /\
    Py.getitem0 (JStr (u "a pet")) = Ok (JStr [c]) /\
    Py.slice_from1 (JStr (u "a pet")) = Ok (JStr rest) /\
    capitalize (JStr (u "a pet")) = Ok (str_upper [c] ++ rest).
Proof.
  destruct (@capitalize_never_out_of_range excerpt_case) as [H _].
  destruct (H (JStr (u "a pet")) eq_refl) as [H1 _].
  exact (H1 (u "a pet") eq_refl).
Defined.

(** ** Whole runs *)

Section Runs.
Context {uc : UnicodeCase}.
Variable fs : filesystem.

Lemma try_block_load_failed path e out :
  fs path = inl e -> try_block fs path out = (out, Raise e).
Proof. intros H. unfold try_block, load, bind. rewrite H. reflexivity. Qed.

Lemma try_block_loaded path data out :
  fs path = inr data ->
  try_block fs path out
  = match traverse data out with
    | (out', Ok _) => (out', Ok [])
    | (out', Raise e) => (out', Raise e)
    end.
Proof.
  intros H. unfold try_block, load, bind. rewrite H. unfold ret.
  destruct (traverse data out) as [o [[]|e]]; reflexivity.
Qed.

(** Every line the traversal prints comes from a pair of the document. *)
Lemma traverse_lines data out out' r :
  traverse data out = (out', r) ->
  exists ls, out' = out ++ ls /\
    Forall (fun line => exists w c rest,
              source_of data w (c :: rest) /\
              line = str_lower w ++ vbar ++ str_upper [c] ++ rest) ls.
Proof.
  unfold traverse.
  destruct (Py.values data) as [entries|e] eqn:V.
  - rewrite bind_lift_ok. intros H.
    destruct (for_each_lines process_entry
                (fun entry line => exists w meanings ms meaning,
                   Py.get entry "word" JNull = Ok (JStr w) /\
                   Py.get entry "meanings" (JList []) = Ok meanings /\
                   Py.iter meanings = Ok ms /\ In meaning ms /\
                   line_of_meaning w meaning line))
      with (xs := entries) (out := out) (out' := out') (r := r)
      as (ls & E & F); [|exact H|].
    + intros entry o o' r' He. exact (process_entry_lines _ _ He).
    + exists ls. split; [exact E|].
      eapply Forall_impl; [|exact F].
      intros line (entry & Hin & w & meanings & ms & meaning
                   & Gw & Gm & I & Hin' & c & rest & Gd & ->).
      exists w, c, rest. split; [|reflexivity].
      exists entries, entry, meanings, ms, meaning. auto 10.
  - rewrite bind_lift_raise. intros H. inversion H; subst.
    exists []. split; [now rewrite app_nil_r | constructor].
Qed.

(** A call only appends to the output and does not look at what is already
    there, so a run can be studied from an empty output. *)
Lemma extract_word_defs_appends path out :
  extract_word_defs fs path out
  = (out ++ fst (extract_word_defs fs path []),
     snd (extract_word_defs fs path [])).
Proof.
  assert (U : uniform (try_block fs path)).
  { unfold try_block.
    apply uniform_bind.
    - unfold load. destruct (fs path); [apply uniform_raise | apply uniform_ret].
    - intros data. apply uniform_bind; [apply uniform_traverse|].
      intros _. apply uniform_ret. }
  unfold extract_word_defs. rewrite (U out).
  destruct (try_block fs path []) as [o [results|e]]; simpl.
  - reflexivity.
  - destruct (is_Exception e); simpl; [|reflexivity].
    rewrite !print_diagnostic. simpl. now rewrite app_assoc.
Qed.

(** The upper-case form of one ASCII character is one character. *)
Lemma str_upper_ascii_char c :
  (c < 128)%N -> str_upper [c] = [ascii_upper_cp c].
Proof.
  intros H. rewrite str_upper_ascii; [reflexivity|].
  simpl. apply N.ltb_lt in H. rewrite H. reflexivity.
Qed.

End Runs.

(** C1, as amended: every data line of a run is [w|d] for a pair (word, def)
    of the document, where [w] is the word lower-cased and [d] is the
    upper-case form of the first character of [def] followed by the other
    characters of [def] unchanged.  That upper-case form is what [str.upper]
    gives for the one-character string, which can be longer than one
    character; when the first character is ASCII it is one character, and the
    line is case-normalised character by character. *)
Theorem lines_are_case_normalized
    {uc : UnicodeCase} (fs : filesystem) (path : pystr)
    (lines : stdout) (r : result results_t) (line : pystr) :
  try_block fs path [] = (lines, r) -> In line lines ->
  exists data w c rest,
    fs path = inr data /\ source_of data w (c :: rest) /\
    line = str_lower w ++ vbar ++ str_upper [c] ++ rest /\
    ((c < 128)%N -> case_normalized_charwise w (c :: rest) line).
Proof.
  intros H Hin.
  destruct (fs path) as [e|data] eqn:Hfs.
  - rewrite (try_block_load_failed fs path [] Hfs) in H.
    inversion H; subst. destruct Hin.
  - rewrite (try_block_loaded fs path [] Hfs) in H.
    destruct (traverse data []) as [o r0] eqn:T.
    destruct (traverse_lines _ _ T) as (ls & E & F). simpl in E. subst o.
    assert (lines = ls) as -> by (destruct r0 as [[]|e]; inversion H; reflexivity).
    rewrite Forall_forall in F.
    destruct (F line Hin) as (w & c & rest & Hsrc & ->).
    exists data, w, c, rest. repeat split; try assumption.
    intros Hc. exists c, rest, (ascii_upper_cp c).
    rewrite (str_upper_ascii_char Hc). repeat split.
Qed.

Lemma lines_are_case_normalized_witness :
  exists data w c rest,
    single_file Samples.path Samples.cat_doc Samples.path = inr data /\
    source_of data w (c :: rest) /\
    u "cat|A small domesticated feline"
    = str_lower w ++ vbar ++ str_upper [c] ++ rest /\
    ((c < 128)%N ->
     case_normalized_charwise w (c :: rest) (u "cat|A small domesticated feline")).
Proof.
  apply (@lines_are_case_normalized excerpt_case
           (single_file Samples.path Samples.cat_doc) Samples.path
           [u "cat|A small domesticated feline"] (Ok [])).
  - vm_compute. reflexivity.
  - left. reflexivity.
Defined.

(** C1 as first stated fails on a definition that starts with U+00DF: the
    line printed is [eszett|SS is a letter], whose second part does not
    start with one upper-cased character followed by the rest of the
    definition. *)
Lemma charwise_claim_fails_on_sharp_s :
  ~ charwise_claim (single_file Samples.path Samples.eszett_doc) Samples.path.
Proof.
  intros H.
  destruct (H (u "eszett|SS is a letter")) as (data & w & def & Hfs & Hsrc & Hcn).
  { vm_compute. left. reflexivity. }
  vm_compute in Hfs. injection Hfs as <-.
  destruct Hsrc as (entries & entry & meanings & ms & meaning
                    & V & Hin & Gw & Gm & I & Hin' & Gd).
  vm_compute in V. injection V as <-.
  destruct Hin as [<- | []].
  vm_compute in Gm. injection Gm as <-.
  vm_compute in I. injection I as <-.
  destruct Hin' as [<- | []].
  vm_compute in Gd. injection Gd as <-.
  destruct Hcn as (c & rest & d0 & E & U & _).
  injection E as <- <-.
  vm_compute in U. discriminate U.
Qed.

(** C5: when opening, reading or parsing the file fails, the exception is
    caught by the one handler; the run prints exactly
    [Error processing file: ] followed by the message of the exception,
    returns an empty list, and nothing propagates to the caller. *)
Theorem load_failure_is_reported
    {uc : UnicodeCase} (fs : filesystem) (path : pystr) (e : exception)
    (out : stdout) :
  fs path = inl e ->
  extract_word_defs fs path out
  = (out ++ [u "Error processing file: " ++ exc_msg e], Returned []).
Proof.
  intros H. unfold extract_word_defs.
  rewrite (try_block_load_failed fs path out H).
  assert (Ex : is_Exception e = true) by (destruct e as [[] msg]; reflexivity).
  rewrite Ex, print_diagnostic. reflexivity.
Qed.

Lemma load_failure_is_reported_witness :
  extract_word_defs
    (broken_files (mkExc JSONDecodeError
                     (u "Expecting value: line 1 column 1 (char 0)")))
    Samples.path []
  = ([] ++ [u "Error processing file: "
              ++ u "Expecting value: line 1 column 1 (char 0)"],
     Returned []).
Proof.
  apply (@load_failure_is_reported excerpt_case
           (broken_files (mkExc JSONDecodeError
                            (u "Expecting value: line 1 column 1 (char 0)")))
           Samples.path
           (mkExc JSONDecodeError (u "Expecting value: line 1 column 1 (char 0)"))
           []).
  reflexivity.
Defined.

(** C6, as amended: a run that fails prints exactly one diagnostic, as its
    last line, and returns an empty list.  When the failure is in opening,
    reading or parsing the file, no data line is printed.  When the
    exception is raised during the traversal, the lines before the
    diagnostic are the data lines the traversal had printed by then. *)
Theorem failure_prints_one_diagnostic
    {uc : UnicodeCase} (fs : filesystem) (path : pystr)
    (lines : stdout) (e : exception) :
  try_block fs path [] = (lines, Raise e) ->
  extract_word_defs fs path [] = (lines ++ [diagnostic e], Returned []) /\
  (forall e', fs path = inl e' -> lines = [] /\ e' = e) /\
  (forall data, fs path = inr data ->
     traverse data [] = (lines, Raise e) /\
     Forall (fun line => exists w c rest,
               source_of data w (c :: rest) /\
               line = str_lower w ++ vbar ++ str_upper [c] ++ rest) lines).
Proof.
  intros H. split; [|split].
  - unfold extract_word_defs. rewrite H.
    assert (Ex : is_Exception e = true) by (destruct e as [[] msg]; reflexivity).
    rewrite Ex, print_diagnostic. reflexivity.
  - intros e' Hfs.
    rewrite (try_block_load_failed fs path [] Hfs) in H.
    inversion H; subst. auto.
  - intros data Hfs.
    rewrite (try_block_loaded fs path [] Hfs) in H.
    destruct (traverse data []) as [o [[]|e0]] eqn:T; [discriminate H|].
    inversion H; subst. split; [reflexivity|].
    destruct (traverse_lines _ _ T) as (ls & E & F).
    simpl in E. subst. exact F.
Qed.

Lemma failure_prints_one_diagnostic_witness :
  extract_word_defs (single_file Samples.path Samples.mixed_doc) Samples.path []
  = ([u "cat|A pet"]
       ++ [diagnostic (no_attribute (JInt 42) "lower")], Returned []) /\
  (forall e', single_file Samples.path Samples.mixed_doc Samples.path = inl e' ->
     [u "cat|A pet"] = [] /\ e' = no_attribute (JInt 42) "lower") /\
  (forall data, single_file Samples.path Samples.mixed_doc Samples.path = inr data ->
     traverse data [] = ([u "cat|A pet"], Raise (no_attribute (JInt 42) "lower")) /\
     Forall (fun line => exists w c rest,
               source_of data w (c :: rest) /\
               line = str_lower w ++ vbar ++ str_upper [c] ++ rest)
            [u "cat|A pet"]).
Proof.
  apply (@failure_prints_one_diagnostic excerpt_case
           (single_file Samples.path Samples.mixed_doc) Samples.path
           [u "cat|A pet"] (no_attribute (JInt 42) "lower")).
  vm_compute. reflexivity.
Defined.

(** C6 as first stated fails on a document whose first entry is well formed
    and whose second entry has a number as its word: the first entry's line
    is printed, then [word.lower()] raises, and the output is the data line
    followed by the diagnostic. *)
Lemma partial_output_before_failure :
  ~ no_partial_output (single_file Samples.path Samples.mixed_doc) Samples.path.
Proof.
  intros H.
  specialize (H [u "cat|A pet"] (no_attribute (JInt 42) "lower")).
  assert (E : try_block (single_file Samples.path Samples.mixed_doc)
                Samples.path []
              = ([u "cat|A pet"], Raise (no_attribute (JInt 42) "lower")))
    by (vm_compute; reflexivity).
  specialize (H E). vm_compute in H. discriminate H.
Qed.

(** C7: whatever the path and whatever the file holds, the call returns an
    empty list: on success the accumulator, which is still empty, and on
    failure the empty list of the handler. *)
Theorem always_returns_empty
    {uc : UnicodeCase} (fs : filesystem) (path : pystr) (out : stdout) :
  snd (extract_word_defs fs path out) = Returned [] /\
  (forall out' results,
     try_block fs path out = (out', Ok results) -> results = []).
Proof.
  assert (R : forall out' results,
             try_block fs path out = (out', Ok results) -> results = []).
  { intros out' results. unfold try_block, load.
    destruct (fs path) as [e|data]; [discriminate|].
    unfold bind, ret.
    destruct (traverse data out) as [o [[]|e]]; [|discriminate].
    intros H. inversion H. reflexivity. }
  split; [|exact R].
  unfold extract_word_defs.
  destruct (try_block fs path out) as [o [results|e]] eqn:T.
  - simpl. now rewrite (R o results eq_refl).
  - assert (Ex : is_Exception e = true) by (destruct e as [[] msg]; reflexivity).
    rewrite Ex, print_diagnostic. reflexivity.
Qed.

Lemma always_returns_empty_witness :
  snd (extract_word_defs (single_file Samples.path Samples.cat_doc)
         Samples.path [])
  = Returned [] /\
  (@nil json) = [].
Proof.
  destruct (@always_returns_empty excerpt_case
              (single_file Samples.path Samples.cat_doc) Samples.path [])
    as [H1 H2].
  split; [exact H1|].
  exact (H2 [u "cat|A small domesticated feline"] [] eq_refl).
Defined.

(** C8: on the document of the end-to-end example the run prints the one
    line [cat|A small domesticated feline] and returns an empty list. *)
Theorem end_to_end_example
    {uc : UnicodeCase} (fs : filesystem) (path : pystr) :
  fs path = inr Samples.cat_doc ->
  extract_word_defs fs path [] =
  ([u "cat|A small domesticated feline"], Returned []).
Proof.
  intros H. unfold extract_word_defs.
  rewrite (try_block_loaded fs path [] H).
  assert (El : str_lower (u "Cat") = u "cat")
    by (rewrite str_lower_ascii; reflexivity).
  assert (T : traverse Samples.cat_doc []
              = ([u "cat|A small domesticated feline"], Ok tt)).
  { unfold traverse. simpl Py.values. rewrite bind_lift_ok.
    simpl List.map. rewrite for_each_cons.
    rewrite (@process_entry_run _ Samples.cat_entry_1 (JStr (u "Cat"))
               (JList [ Samples.meaning "a small domesticated feline";
                        Samples.empty_def ])
               [ Samples.meaning "a small domesticated feline";
                 Samples.empty_def ] []
               eq_refl eq_refl eq_refl eq_refl eq_refl).
    rewrite for_each_cons.
    rewrite (@process_meaning_print _ (u "Cat")
               (Samples.meaning "a small domesticated feline")
               97%N (u " small domesticated feline") [] eq_refl).
    rewrite El, (str_upper_ascii_char (c := 97%N)) by reflexivity.
    reflexivity. }
  rewrite T. reflexivity.
Qed.

Lemma end_to_end_example_witness :
  extract_word_defs (single_file Samples.path Samples.cat_doc) Samples.path [] =
  ([u "cat|A small domesticated feline"], Returned []).
Proof.
  apply (@end_to_end_example excerpt_case
           (single_file Samples.path Samples.cat_doc) Samples.path).
  reflexivity.
Defined.

(** C10: the run is a function of the sequence of values of the document.
    Two documents with the same values in the same order, under whatever
    keys and loaded from whatever paths, give the same printed output and
    the same returned value; in particular two runs over one document do. *)
Theorem output_depends_on_values_only
    {uc : UnicodeCase} (fs1 fs2 : filesystem) (path1 path2 : pystr)
    (d1 d2 : pydict) (out : stdout) :
  fs1 path1 = inr (JDict d1) -> fs2 path2 = inr (JDict d2) ->
  List.map snd d1 = List.map snd d2 ->
  extract_word_defs fs1 path1 out = extract_word_defs fs2 path2 out.
Proof.
  intros H1 H2 Hv. unfold extract_word_defs.
  rewrite (try_block_loaded fs1 path1 out H1),
          (try_block_loaded fs2 path2 out H2).
  unfold traverse, Py.values. rewrite !bind_lift_ok, Hv. reflexivity.
Qed.

Lemma output_depends_on_values_only_witness :
  extract_word_defs (single_file Samples.path Samples.cat_doc) Samples.path []
  = extract_word_defs (single_file (u "other.json") Samples.cat_doc_rekeyed)
      (u "other.json") [].
Proof.
  apply (@output_depends_on_values_only excerpt_case
           (single_file Samples.path Samples.cat_doc)
           (single_file (u "other.json") Samples.cat_doc_rekeyed)
           Samples.path (u "other.json")
           [ (u "1", Samples.cat_entry_1); (u "2", Samples.cat_entry_2) ]
           [ (u "first", Samples.cat_entry_1); (u "second", Samples.cat_entry_2) ]
           []); reflexivity.
Defined.

(** * Further properties of the routine *)

(** ** Documents of the documented shape *)

Section WellShaped.
Context {uc : UnicodeCase}.



End WellShaped.



(** ** Order of processing *)

Lemma traverse_app {uc : UnicodeCase} (d1 d2 : pydict) (out : stdout) :
  traverse (JDict (d1 ++ d2)) out
  = match traverse (JDict d1) out with
    | (out', Ok _) => traverse (JDict d2) out'
    | (out', Raise e) => (out', Raise e)
    end.
Proof.
  unfold traverse, Py.values. rewrite !bind_lift_ok, map_app.
  apply for_each_app.
Qed.

(** X2: entries are processed in document order and the first failure ends
    the traversal.  When the traversal of a prefix of the document succeeds,
    the whole document prints the prefix's lines and goes on with the rest;
    when it raises, the whole document prints the same lines and raises the
    same exception, whatever follows. *)
Theorem traverse_prefix
    {uc : UnicodeCase} (d1 d2 : pydict) (out : stdout) :
  (forall lines,
     traverse (JDict d1) out = (lines, Ok tt) ->
     traverse (JDict (d1 ++ d2)) out = traverse (JDict d2) lines) /\
  (forall lines e,
     traverse (JDict d1) out = (lines, Raise e) ->
     traverse (JDict (d1 ++ d2)) out = (lines, Raise e)).
Proof.
  split.
  - intros lines H. rewrite traverse_app, H. reflexivity.
  - intros lines e H. rewrite traverse_app, H. reflexivity.
Qed.

Lemma traverse_prefix_witness :
  traverse (JDict ([(u "1", Samples.cat_entry_1)]
                     ++ [(u "2", Samples.cat_entry_2)])) []
  = traverse (JDict [(u "2", Samples.cat_entry_2)])
      [u "cat|A small domesticated feline"].
Proof.
  apply (proj1 (@traverse_prefix excerpt_case
                  [(u "1", Samples.cat_entry_1)]
                  [(u "2", Samples.cat_entry_2)] [])).
  reflexivity.
Defined.

(** ** Documents and entries that are not mappings *)

(** X3: when the file parses to anything but an object (a list, a string,
    a number, a boolean, null), the run prints the one line
    [Error processing file: 'T' object has no attribute 'values'], with [T]
    the type of the value, and returns the empty list. *)
Theorem top_level_not_a_mapping
    {uc : UnicodeCase} (fs : filesystem) (path : pystr) (data : json) :
  fs path = inr data -> is_dict data = false ->
  extract_word_defs fs path []
  = ([u "Error processing file: '" ++ type_name data
        ++ u "' object has no attribute 'values'"],
     Returned []).
Proof.
  intros Hfs Hd. unfold extract_word_defs.
  rewrite (try_block_loaded fs path [] Hfs).
  destruct data; try discriminate Hd; reflexivity.
Qed.

Lemma top_level_not_a_mapping_witness :
  extract_word_defs (single_file Samples.path (JList [Samples.cat_entry_1]))
    Samples.path []
  = ([u "Error processing file: '" ++ type_name (JList [Samples.cat_entry_1])
        ++ u "' object has no attribute 'values'"],
     Returned []).
Proof.
  apply (@top_level_not_a_mapping excerpt_case
           (single_file Samples.path (JList [Samples.cat_entry_1]))
           Samples.path (JList [Samples.cat_entry_1])); reflexivity.
Defined.

(** X4: an entry that is not a mapping is not skipped, even when it is null
    or empty: [entry.get] raises before the guard is reached.  The run
    prints the lines of the entries before it, then the diagnostic
    ['T' object has no attribute 'get'], and nothing of the entries after
    it. *)
Theorem entry_not_a_mapping
    {uc : UnicodeCase} (fs : filesystem) (path : pystr)
    (before after : pydict) (key : pystr) (entry : json) (lines : stdout) :
  fs path = inr (JDict (before ++ (key, entry) :: after)) ->
  is_dict entry = false ->
  traverse (JDict before) [] = (lines, Ok tt) ->
  extract_word_defs fs path []
  = (lines ++ [u "Error processing file: '" ++ type_name entry
                 ++ u "' object has no attribute 'get'"],
     Returned []).
Proof.
  intros Hfs Hd Hb. unfold extract_word_defs.
  rewrite (try_block_loaded fs path [] Hfs).
  rewrite traverse_app, Hb.
  unfold traverse, Py.values. rewrite bind_lift_ok. simpl List.map.
  rewrite for_each_cons.
  assert (E : process_entry entry lines = (lines, Raise (no_attribute entry "get"))).
  { destruct entry; try discriminate Hd; reflexivity. }
  rewrite E. cbv iota beta.
  change (is_Exception (no_attribute entry "get")) with true. cbv iota.
  rewrite print_diagnostic.
  destruct entry; try discriminate Hd; reflexivity.
Qed.

Lemma entry_not_a_mapping_witness :
  extract_word_defs (single_file Samples.path (JDict Samples.null_entry_doc))
    Samples.path []
  = ([u "cat|A small domesticated feline"]
       ++ [u "Error processing file: '" ++ type_name JNull
             ++ u "' object has no attribute 'get'"],
     Returned []).
Proof.
  apply (@entry_not_a_mapping excerpt_case
           (single_file Samples.path (JDict Samples.null_entry_doc))
           Samples.path
           [(u "1", Samples.cat_entry_1)] [(u "3", Samples.cat_entry_1)]
           (u "2") JNull [u "cat|A small domesticated feline"]);
    reflexivity.
Defined.

(** ** Values of unexpected type inside an entry *)

Section Unexpected.
Context {uc : UnicodeCase}.

Lemma for_each_falsy_defs word ms out :
  forallb falsy_def ms = true ->
  for_each (process_meaning word) ms out = (out, Ok tt).
Proof.
  induction ms as [|m ms IH]; intros H; [reflexivity|].
  simpl in H. apply andb_prop in H. destruct H as [Hm Hms].
  rewrite for_each_cons.
  unfold falsy_def in Hm.
  destruct (Py.get m "def" JNull) as [v|e] eqn:G; [|discriminate Hm].
  apply negb_true_iff in Hm.
  rewrite (process_meaning_falsy word m out G Hm). exact (IH Hms).
Qed.

Lemma lower_not_str word :
  is_str word = false -> Py.lower word = Raise (no_attribute word "lower").
Proof. destruct word; intros H; try discriminate H; reflexivity. Qed.

(** The capitalization fails on a truthy value only with a shape error. *)
Lemma capitalize_shape_error definition e :
  truthy definition = true ->
  capitalize definition = Raise e -> is_shape_error e = true.
Proof.
  unfold capitalize.
  destruct definition as [ | b | z | f | s | l | dd]; simpl; intros T H;
    try discriminate T; try (inversion H; subst; reflexivity).
  - destruct s as [|c rest]; [discriminate T | discriminate H].
  - destruct l as [|x l]; [discriminate T|]. simpl in H.
    destruct x as [ | b | z | f | s | l' | dd]; simpl in H;
      inversion H; subst; reflexivity.
Qed.

Lemma format_line_shape_error word definition e :
  truthy definition = true ->
  format_line word definition = Raise e -> is_shape_error e = true.
Proof.
  intros T. unfold format_line.
  destruct (Py.lower word) as [w|e0] eqn:L.
  - destruct (capitalize definition) as [d|e1] eqn:C; [discriminate|].
    intros H. inversion H; subst. exact (capitalize_shape_error _ T C).
  - intros H. inversion H; subst.
    unfold is_shape_error. now rewrite (lower_raise _ L).
Qed.

Lemma shape_error_is_traversal_error e :
  is_shape_error e = true -> is_traversal_error e = true.
Proof.
  unfold is_shape_error, is_traversal_error.
  destruct (exc_cls e); intros H; try discriminate H; reflexivity.
Qed.

Lemma class_traversal_error e c :
  exc_cls e = c ->
  match c with
  | AttributeError | TypeError | KeyError | UnicodeEncodeError => True
  | _ => False
  end ->
  is_traversal_error e = true.
Proof.
  intros E H. unfold is_traversal_error. rewrite E.
  destruct c; try contradiction; reflexivity.
Qed.

Lemma process_meaning_traversal_error word meaning out out' e :
  process_meaning word meaning out = (out', Raise e) ->
  is_traversal_error e = true.
Proof.
  unfold process_meaning.
  destruct (Py.get meaning "def" JNull) as [definition|e0] eqn:G.
  - rewrite bind_lift_ok.
    destruct (truthy definition) eqn:T; [|discriminate].
    destruct (format_line word definition) as [line|e1] eqn:F.
    + rewrite bind_lift_ok. intros H.
      exact (class_traversal_error e (print_raise_class _ _ H) I).
    + rewrite bind_lift_raise. intros H. inversion H; subst.
      apply shape_error_is_traversal_error.
      exact (format_line_shape_error _ _ T F).
  - rewrite bind_lift_raise. intros H. inversion H; subst.
    exact (class_traversal_error e (get_raise _ _ _ G) I).
Qed.

Lemma process_entry_traversal_error entry out out' e :
  process_entry entry out = (out', Raise e) -> is_traversal_error e = true.
Proof.
  unfold process_entry.
  destruct (Py.get entry "word" JNull) as [word|e0] eqn:Gw.
  2:{ rewrite bind_lift_raise. intros H. inversion H; subst.
      exact (class_traversal_error e (get_raise _ _ _ Gw) I). }
  rewrite bind_lift_ok.
  destruct (Py.get entry "meanings" (JList [])) as [meanings|e0] eqn:Gm.
  2:{ rewrite bind_lift_raise. intros H. inversion H; subst.
      exact (class_traversal_error e (get_raise _ _ _ Gm) I). }
  rewrite bind_lift_ok.
  destruct (truthy word && truthy meanings); [|discriminate].
  destruct (Py.iter meanings) as [ms|e0] eqn:It.
  - rewrite bind_lift_ok. intros H.
    destruct (for_each_raise _ _ _ H) as (m & o & _ & Hm).
    exact (process_meaning_traversal_error _ _ _ Hm).
  - rewrite bind_lift_raise. intros H. inversion H; subst.
    exact (class_traversal_error e (iter_raise _ It) I).
Qed.

Lemma traverse_traversal_error data out out' e :
  traverse data out = (out', Raise e) -> is_traversal_error e = true.
Proof.
  unfold traverse.
  destruct (Py.values data) as [entries|e0] eqn:V.
  - rewrite bind_lift_ok. intros H.
    destruct (for_each_raise _ _ _ H) as (x & o & _ & Hx).
    exact (process_entry_traversal_error _ _ Hx).
  - rewrite bind_lift_raise. intros H. inversion H; subst.
    exact (class_traversal_error e (values_raise _ V) I).
Qed.

End Unexpected.

(** X5: a word that is truthy but not a string (a number, [true], a list,
    an object) is only found out when a line is about to be printed.  If no
    meaning of the entry has a truthy [def], the entry passes silently; at
    the first meaning that has one, [word.lower()] raises
    ['T' object has no attribute 'lower'] and nothing is printed for the
    entry. *)
Theorem non_string_word_fails_late
    {uc : UnicodeCase} (entry word : json) (out : stdout) :
  Py.get entry "word" JNull = Ok word ->
  truthy word = true -> is_str word = false ->
  (forall ms,
     Py.get entry "meanings" (JList []) = Ok (JList ms) ->
     forallb falsy_def ms = true ->
     process_entry entry out = (out, Ok tt)) /\
  (forall ms1 m ms2 v,
     Py.get entry "meanings" (JList []) = Ok (JList (ms1 ++ m :: ms2)) ->
     forallb falsy_def ms1 = true ->
     Py.get m "def" JNull = Ok v -> truthy v = true ->
     process_entry entry out = (out, Raise (no_attribute word "lower"))).
Proof.
  intros Gw Tw Sw. split.
  - intros ms Gm Hms. destruct ms as [|m ms].
    + apply (process_entry_skip entry out Gw Gm). right. reflexivity.
    + rewrite (@process_entry_run _ entry word (JList (m :: ms)) (m :: ms) out
                 Gw Gm Tw eq_refl eq_refl).
      apply for_each_falsy_defs. exact Hms.
  - intros ms1 m ms2 v Gm H1 Gd Tv.
    rewrite (@process_entry_run _ entry word (JList (ms1 ++ m :: ms2))
               (ms1 ++ m :: ms2) out Gw Gm Tw);
      [ | destruct ms1; reflexivity | reflexivity ].
    rewrite for_each_app, (for_each_falsy_defs word ms1 out H1), for_each_cons.
    unfold process_meaning. rewrite Gd, bind_lift_ok, Tv.
    unfold format_line. rewrite (lower_not_str word Sw). reflexivity.
Qed.

Lemma non_string_word_fails_late_witness :
  process_entry Samples.number_word_entry []
  = ([], Raise (no_attribute (JInt 42) "lower")).
Proof.
  apply (proj2 (@non_string_word_fails_late excerpt_case
                  Samples.number_word_entry (JInt 42) []
                  eq_refl eq_refl eq_refl)
               [Samples.empty_def] (Samples.meaning "the answer") []
               (JStr (u "the answer")));
    reflexivity.
Defined.

(** X6: when the word is truthy and [meanings] is truthy but not a list,
    the entry prints nothing and the run fails there.  A string or an
    object is iterated, its characters or keys are strings, and
    [meaning.get] raises ['str' object has no attribute 'get']; a number or
    [true] is not iterable. *)
Theorem meanings_not_a_list
    {uc : UnicodeCase} (entry word meanings : json) (out : stdout) :
  Py.get entry "word" JNull = Ok word -> truthy word = true ->
  Py.get entry "meanings" (JList []) = Ok meanings ->
  truthy meanings = true -> is_list meanings = false ->
  process_entry entry out
  = (out,
     Raise (match meanings with
            | JStr _ | JDict _ => no_attribute (JStr []) "get"
            | _ => not_iterable meanings
            end)).
Proof.
  intros Gw Tw Gm Tm Lm. unfold process_entry.
  rewrite Gw, bind_lift_ok, Gm, bind_lift_ok, Tw, Tm. simpl andb. cbv iota.
  destruct meanings as [ | b | z | f | s | ms | dd];
    try discriminate Lm; try reflexivity.
  - destruct s as [|c s]; [discriminate Tm | reflexivity].
  - destruct dd as [|[k v] dd]; [discriminate Tm | reflexivity].
Qed.

Lemma meanings_not_a_list_witness :
  process_entry Samples.string_meanings_entry []
  = ([], Raise (no_attribute (JStr []) "get")).
Proof.
  apply (@meanings_not_a_list excerpt_case Samples.string_meanings_entry
           (JStr (u "Cat")) (JStr (u "feline")) []); reflexivity.
Defined.

(** X7: a [def] that is truthy but not a string (a non-zero number,
    [true], a non-empty list or object) never yields a line: the meaning
    prints nothing and raises an AttributeError, a TypeError or a
    KeyError. *)
Theorem non_string_def_prints_nothing
    {uc : UnicodeCase} (word meaning v : json) (out : stdout) :
  Py.get meaning "def" JNull = Ok v ->
  truthy v = true -> is_str v = false ->
  exists e,
    process_meaning word meaning out = (out, Raise e) /\
    is_shape_error e = true.
Proof.
  intros G T S. unfold process_meaning. rewrite G, bind_lift_ok, T.
  destruct (format_line word v) as [line|e] eqn:F.
  - destruct (format_line_ok _ _ F) as (w & c & rest & _ & -> & _).
    discriminate S.
  - exists e. split; [reflexivity|].
    exact (format_line_shape_error _ _ T F).
Qed.

Lemma non_string_def_prints_nothing_witness :
  exists e,
    process_meaning (JStr (u "Cat")) Samples.list_def [] = ([], Raise e) /\
    is_shape_error e = true.
Proof.
  apply (@non_string_def_prints_nothing excerpt_case (JStr (u "Cat"))
           Samples.list_def
           (JList [ JStr (u "a pet"); JStr (u "a feline") ]) []);
    reflexivity.
Defined.

(** X8: once the file has been loaded, the only exceptions the run can
    meet are those of a document of unexpected shape (an AttributeError, a
    TypeError or a KeyError) and the UnicodeEncodeError that [print] raises
    on a line the output stream cannot encode; in particular never an
    IndexError, nor an error of reading or decoding. *)
Theorem loaded_run_failure_classes
    {uc : UnicodeCase} (fs : filesystem) (path : pystr) (data : json)
    (lines : stdout) (e : exception) :
  fs path = inr data ->
  try_block fs path [] = (lines, Raise e) ->
  is_traversal_error e = true.
Proof.
  intros Hfs H. rewrite (try_block_loaded fs path [] Hfs) in H.
  destruct (traverse data []) as [o [[]|e0]] eqn:T; [discriminate H|].
  inversion H; subst. exact (traverse_traversal_error _ _ T).
Qed.

Lemma loaded_run_failure_classes_witness :
  is_traversal_error
    (encode_error (u "cat|X" ++ 55296%N :: u "y")) = true.
Proof.
  apply (@loaded_run_failure_classes excerpt_case
           (single_file Samples.path (JDict Samples.surrogate_doc))
           Samples.path (JDict Samples.surrogate_doc) [u "cat|A pet"]
           (encode_error (u "cat|X" ++ 55296%N :: u "y"))).
  - reflexivity.
  - vm_compute. reflexivity.
Defined.

(** ** ASCII text *)

Section Ascii.
Context {uc : UnicodeCase}.

Lemma ascii_lower_cp_bound c : (c < 128)%N -> (ascii_lower_cp c < 128)%N.
Proof.
  unfold ascii_lower_cp. intros H.
  destruct (N.leb_spec 65 c); destruct (N.leb_spec c 90); simpl; lia.
Qed.

Lemma ascii_lower_cp_idem c : ascii_lower_cp (ascii_lower_cp c) = ascii_lower_cp c.
Proof.
  unfold ascii_lower_cp.
  destruct (N.leb_spec 65 c); destruct (N.leb_spec c 90); simpl;
    try (destruct (N.leb_spec 65 c); destruct (N.leb_spec c 90); simpl; lia).
  destruct (N.leb_spec 65 (c + 32)); destruct (N.leb_spec (c + 32) 90);
    simpl; lia.
Qed.

Lemma ascii_upper_cp_bound c : (c < 128)%N -> (ascii_upper_cp c < 128)%N.
Proof.
  unfold ascii_upper_cp. intros H.
  destruct (N.leb_spec 97 c); destruct (N.leb_spec c 122); simpl; lia.
Qed.

Lemma ascii_upper_cp_idem c : ascii_upper_cp (ascii_upper_cp c) = ascii_upper_cp c.
Proof.
  unfold ascii_upper_cp.
  destruct (N.leb_spec 97 c); destruct (N.leb_spec c 122); simpl;
    try (destruct (N.leb_spec 97 c); destruct (N.leb_spec c 122); simpl; lia).
  destruct (N.leb_spec 97 (c - 32)); destruct (N.leb_spec (c - 32) 122);
    simpl; lia.
Qed.

Lemma is_ascii_lower s :
  is_ascii s = true -> is_ascii (List.map ascii_lower_cp s) = true.
Proof.
  induction s as [|c s IH]; simpl; intros H; [reflexivity|].
  apply andb_prop in H. destruct H as [Hc Hs].
  rewrite (IH Hs), andb_true_r.
  apply N.ltb_lt. apply ascii_lower_cp_bound. now apply N.ltb_lt.
Qed.

(** The line of an ASCII word and a definition with an ASCII first
    character. *)
Lemma format_line_ascii w c rest :
  is_ascii w = true -> (c < 128)%N ->
  format_line (JStr w) (JStr (c :: rest))
  = Ok (List.map ascii_lower_cp w ++ vbar ++ ascii_upper_cp c :: rest).
Proof.
  intros Hw Hc. unfold format_line, capitalize. simpl.
  rewrite (str_lower_ascii w Hw), (str_upper_ascii_char Hc). reflexivity.
Qed.




End Ascii.



(** X10: on ASCII text the normalisation is idempotent: a word and a
    definition that have been normalised once (the two parts of a printed
    line) give the same line again. *)
Theorem ascii_normalisation_idempotent
    {uc : UnicodeCase} (w : pystr) (c : codepoint) (rest : pystr) :
  is_ascii w = true -> (c < 128)%N ->
  format_line (JStr (List.map ascii_lower_cp w))
              (JStr (ascii_upper_cp c :: rest))
  = format_line (JStr w) (JStr (c :: rest)).
Proof.
  intros Hw Hc.
  rewrite (format_line_ascii w rest Hw Hc).
  rewrite (format_line_ascii (List.map ascii_lower_cp w) rest
             (is_ascii_lower w Hw) (ascii_upper_cp_bound Hc)).
  rewrite map_map, ascii_upper_cp_idem.
  f_equal. f_equal. apply map_ext. intros a. apply ascii_lower_cp_idem.
Qed.

Lemma ascii_normalisation_idempotent_witness :
  format_line (JStr (List.map ascii_lower_cp (u "Cat")))
              (JStr (ascii_upper_cp 97%N :: u " pet"))
  = format_line (JStr (u "Cat")) (JStr (97%N :: u " pet")).
Proof.
  apply (@ascii_normalisation_idempotent excerpt_case (u "Cat") 97%N (u " pet"));
    reflexivity.
Defined.

(** ** The entry point *)

Section MainProperties.
Context {uc : UnicodeCase}.

(** A call reads the file system at its own path only. *)
Lemma extract_word_defs_ext (fs1 fs2 : filesystem) path out :
  fs1 path = fs2 path ->
  extract_word_defs fs1 path out = extract_word_defs fs2 path out.
Proof.
  intros H. unfold extract_word_defs, try_block, load. rewrite H. reflexivity.
Qed.

(** The handler lets nothing through. *)
Lemma extract_word_defs_returned (fs : filesystem) path out :
  exists lines r, extract_word_defs fs path out = (lines, Returned r).
Proof.
  unfold extract_word_defs.
  destruct (try_block fs path out) as [o [results|e]].
  - eauto.
  - assert (Ex : is_Exception e = true) by (destruct e as [[] msg]; reflexivity).
    rewrite Ex, print_diagnostic. eauto.
Qed.

End MainProperties.

(** X11: run as a script, the program always ends with exit status 0, also
    when the file is missing or malformed: it prints what the extractor
    prints for the path compiled into [main], and no exception leaves
    [main].  When that file cannot be loaded the output is the one
    diagnostic line.  The file at that path is the only one that matters:
    two file systems that agree there give the same run. *)
Theorem script_always_exits_zero {uc : UnicodeCase} (fs : filesystem) :
  script fs = (fst (extract_word_defs fs hardcoded_path []), 0%Z) /\
  (forall e, fs hardcoded_path = inl e ->
     script fs = ([u "Error processing file: " ++ exc_msg e], 0%Z)) /\
  (forall fs', fs' hardcoded_path = fs hardcoded_path ->
     script fs' = script fs).
Proof.
  assert (S : forall g : filesystem,
             script g = (fst (extract_word_defs g hardcoded_path []), 0%Z)).
  { intros g. unfold script, main.
    destruct (extract_word_defs_returned g hardcoded_path []) as (lines & r & E).
    rewrite E. reflexivity. }
  split; [apply S | split].
  - intros e He. rewrite S.
    unfold extract_word_defs.
    rewrite (try_block_load_failed fs hardcoded_path [] He).
    assert (Ex : is_Exception e = true) by (destruct e as [[] msg]; reflexivity).
    rewrite Ex, print_diagnostic. reflexivity.
  - intros fs' H. rewrite (S fs'), (S fs).
    now rewrite (extract_word_defs_ext fs' fs hardcoded_path [] H).
Qed.

Lemma script_always_exits_zero_witness :
  script (single_file Samples.path Samples.cat_doc)
  = ([u "Error processing file: "
        ++ u "[Errno 2] No such file or directory: '"
        ++ hardcoded_path ++ u "'"], 0%Z).
Proof.
  apply (proj1 (proj2 (@script_always_exits_zero excerpt_case
                         (single_file Samples.path Samples.cat_doc)))
               (mkExc OSError
                  (u "[Errno 2] No such file or directory: '"
                     ++ hardcoded_path ++ u "'"))).
  reflexivity.
Defined.
